(** * Price-target provider adapters (Benzinga, FMP): a shallow embedding

    The development follows
    [openbb_platform/providers/benzinga/openbb_benzinga/models/price_target.py]
    and
    [openbb_platform/providers/fmp/openbb_fmp/models/price_target.py].

    Python values are a small universe [pyval]; a [dict] is an
    insertion-ordered association list with unique keys; raising is a
    [result]; the extraction steps, which read and write the query object
    and talk to the network, run in a state monad over the query and the
    list of requests issued so far.  What lies outside the two files
    (pydantic's typed coercions, [strptime], the HTTP helpers) enters as the
    fields of two classes, [Externals] and [Network], over which every
    statement is quantified. *)

From Stdlib Require Import ZArith String Ascii List Lia Bool.
From stdpp Require Import base tactics option list strings.

Local Open Scope string_scope.
Local Open Scope Z_scope.

(** ** Python values *)

(** [datetime.date]: a proleptic Gregorian calendar date. *)
Record dateType := mkDate { year : Z; month : Z; day : Z }.

(** [datetime.time], without a time zone. *)
Record time := mkTime { hour : Z; minute : Z; second : Z; microsecond : Z }.

(** [datetime.datetime]; [tz_utc] tells a UTC-aware value from a naive one. *)
Record datetime := mkDatetime { dt_date : dateType; dt_time : time; tz_utc : bool }.

(** The values that travel through the adapters: query arguments and decoded
    JSON.  JSON floats are only ever carried along by the code below, never
    inspected, and are not part of this universe. *)
#[warnings="-register-all"]
Inductive pyval :=
| VNone
| VBool (b : bool)
| VInt (n : Z)
| VStr (s : string)
| VDate (d : dateType)
| VDatetime (dt : datetime)
| VList (l : list pyval)
| VDict (d : list (string * pyval)).

(** A [dict] with [str] keys, in insertion order. *)
Definition dict := list (string * pyval).

(** [bool(v)]: Python truthiness. *)
Definition truthy (v : pyval) : bool :=
  match v with
  | VNone => false
  | VBool b => b
  | VInt n => negb (n =? 0)
  | VStr s => negb (String.eqb s EmptyString)
  | VDate _ | VDatetime _ => true
  | VList l => match l with [] => false | _ => true end
  | VDict d => match d with [] => false | _ => true end
  end.

(** ** Exceptions *)

Inductive exn :=
| ValidationError   (* pydantic: a value failed validation *)
| EmptyDataError    (* openbb_core.provider.utils.errors *)
| KeyError
| ValueError
| TypeError
| AttributeError
| OverflowError     (* fromtimestamp: the timestamp does not fit the C time_t *)
| OSError           (* fromtimestamp: the C gmtime cannot hold the year *)
| RequestError.     (* a failed HTTP exchange *)

Inductive result (A : Type) :=
| OK (a : A)
| Raise (e : exn).
Arguments OK {A} a.
Arguments Raise {A} e.

#[export] Instance result_ret : MRet result := fun _ a => OK a.
#[export] Instance result_bind : MBind result := fun _ _ f r =>
  match r with OK a => f a | Raise e => Raise e end.

(** ** Dictionaries *)

Module Dict.

(** [d.get(k)] *)
Fixpoint get (k : string) (d : dict) : option pyval :=
  match d with
  | [] => None
  | (k', v) :: d' => if String.eqb k k' then Some v else get k d'
  end.

(** [d[k] = v]: overwrite in place, or append a new key. *)
Fixpoint setitem (k : string) (v : pyval) (d : dict) : dict :=
  match d with
  | [] => [(k, v)]
  | (k', v') :: d' =>
      if String.eqb k k' then (k', v) :: d' else (k', v') :: setitem k v d'
  end.

(** [d.pop(k, None)], the popped value being dropped. *)
Fixpoint pop (k : string) (d : dict) : dict :=
  match d with
  | [] => []
  | (k', v) :: d' => if String.eqb k k' then d' else (k', v) :: pop k d'
  end.

(** [{f(k, v) for k, v in d.items()}] read as a dict comprehension: the
    pairs are stored one after the other, a later pair overwriting an
    earlier one with the same key. *)
Definition comprehension (f : string -> pyval -> string * pyval) (d : dict) : dict :=
  fold_left (fun acc kv => let '(k', v') := f kv.1 kv.2 in setitem k' v' acc) d [].

Definition keys (d : dict) : list string := map fst d.

(** Python dictionaries never hold a key twice. *)
Definition wf (d : dict) : Prop := NoDup (keys d).

End Dict.

(** ** Strings *)

(** [s.split(sep)] for a one-character separator: never empty, one more
    piece than there are separators. *)
Fixpoint split (sep : ascii) (s : string) : list string :=
  match s with
  | EmptyString => [EmptyString]
  | String c s' =>
      if Ascii.eqb c sep then EmptyString :: split sep s'
      else match split sep s' with
           | piece :: rest => String c piece :: rest
           | [] => [String c EmptyString]
           end
  end.

(** [sep.join(l)] *)
Definition join (sep : string) (l : list string) : string := String.concat sep l.

(** [s.replace(c, empty)]: every occurrence of the character [c] removed. *)
Fixpoint remove_char (c : ascii) (s : string) : string :=
  match s with
  | EmptyString => EmptyString
  | String c' s' => if Ascii.eqb c' c then remove_char c s' else String c' (remove_char c s')
  end.

(** Number of occurrences of a character. *)
Fixpoint count_char (c : ascii) (s : string) : nat :=
  match s with
  | EmptyString => 0%nat
  | String c' s' => ((if Ascii.eqb c' c then 1 else 0) + count_char c s')%nat
  end.

Definition comma : ascii := ","%char.
Definition newline : ascii := Ascii.ascii_of_nat 10.

(** ** Calendar arithmetic of [datetime] *)

(** Days from 1970-01-01 to the given civil date. *)
Definition days_of_date (d : dateType) : Z :=
  let y := if month d <=? 2 then year d - 1 else year d in
  let era := y / 400 in
  let yoe := y - era * 400 in
  let mp := (month d + 9) mod 12 in
  let doy := (153 * mp + 2) / 5 + day d - 1 in
  let doe := yoe * 365 + yoe / 4 - yoe / 100 + doy in
  era * 146097 + doe - 719468.

(** The civil date that lies the given number of days after 1970-01-01. *)
Definition date_of_days (z : Z) : dateType :=
  let z := z + 719468 in
  let era := z / 146097 in
  let doe := z - era * 146097 in
  let yoe := (doe - doe / 1460 + doe / 36524 - doe / 146096) / 365 in
  let y := yoe + era * 400 in
  let doy := doe - (365 * yoe + yoe / 4 - yoe / 100) in
  let mp := (5 * doy + 2) / 153 in
  let d := doy - (153 * mp + 2) / 5 + 1 in
  let m := if mp <? 10 then mp + 3 else mp - 9 in
  mkDate (if m <=? 2 then y + 1 else y) m d.

(** [time()] and [datetime.min.time()]: midnight. *)
Definition time_min : time := mkTime 0 0 0 0.

Definition time_eqb (a b : time) : bool :=
  (hour a =? hour b) && (minute a =? minute b) &&
  (second a =? second b) && (microsecond a =? microsecond b).

(** The binary64 number nearest to [p / q] (ties to even), which is what
    Python's [int / int] returns; given exactly, as [(m, e)] for [m * 2^e].
    [q] is positive. *)
Definition true_divide (p q : Z) : Z * Z :=
  if p =? 0 then (0, 0) else
  let a := Z.abs p in
  let scaled (e : Z) : Z * Z := if 0 <=? e then (a, q * 2 ^ e) else (a * 2 ^ (- e), q) in
  let e0 := Z.log2 a - Z.log2 q - 52 in
  let e := if (scaled e0).1 / (scaled e0).2 <? 2 ^ 52 then e0 - 1 else e0 in
  let n := (scaled e).1 in
  let d := (scaled e).2 in
  let fl := n / d in
  let r := n mod d in
  let m := if 2 * r <? d then fl
           else if d <? 2 * r then fl + 1
           else if Z.even fl then fl else fl + 1 in
  (Z.sgn p * m, e).

(** [int(x)] of a binary64 [x = m * 2^e]: truncation towards zero. *)
Definition int_of_float (x : Z * Z) : Z :=
  if 0 <=? x.2 then x.1 * 2 ^ x.2 else Z.quot x.1 (2 ^ (- x.2)).

(** Microseconds between the epoch and a wall-clock reading taken as UTC. *)
Definition microseconds_since_epoch (d : dateType) (t : time) : Z :=
  ((days_of_date d * 86400 + hour t * 3600 + minute t * 60 + second t) * 1000000
   + microsecond t).

(** [int(dt.timestamp())] for a UTC-aware [dt]: [timestamp()] is
    [(dt - EPOCH).total_seconds()], a float. *)
Definition int_timestamp (dt : datetime) : Z :=
  int_of_float (true_divide (microseconds_since_epoch (dt_date dt) (dt_time dt)) 1000000).

(** What [fromtimestamp] raises for a timestamp whose year [datetime] has
    not (with the 64-bit [time_t] and the 32-bit [tm_year] of the C library
    on Linux): the timestamp may not fit [time_t], the year may not fit
    [tm_year], and otherwise the year is refused by [datetime] itself. *)
Definition fromtimestamp_error (t year : Z) : exn :=
  if (t <? - 2 ^ 63) || (2 ^ 63 <=? t) then OverflowError
  else if (year - 1900 <? - 2 ^ 31) || (2 ^ 31 <=? year - 1900) then OSError
  else ValueError.

(** [datetime.fromtimestamp(t, UTC)] for an integer [t]; years outside
    1..9999 are refused. *)
Definition fromtimestamp (t : Z) : result datetime :=
  let d := date_of_days (t / 86400) in
  let s := t mod 86400 in
  if (1 <=? year d) && (year d <=? 9999)
  then OK (mkDatetime d (mkTime (s / 3600) (s / 60 mod 60) (s mod 60) 0) true)
  else Raise (fromtimestamp_error t (year d)).

(** ** pydantic: what the two files rely on *)

(** The members a field annotation is a [Union] of ([Optional[T]] adds
    [TNone]); the annotations of both files fit this shape. *)
Inductive atom :=
| TNone
| TBool
| TInt
| TStr
| TDate
| TDatetime
| TListStr                       (* List[str] *)
| TLiteral (allowed : list string).

Definition annotation := list atom.

Definition is_str (v : pyval) : bool :=
  match v with VStr _ => true | _ => false end.

(** The value already is of the member type: pydantic returns it unchanged. *)
Definition matches (t : atom) (v : pyval) : bool :=
  match t, v with
  | TNone, VNone => true
  | TBool, VBool _ => true
  | TInt, VInt _ => true
  | TStr, VStr _ => true
  | TDate, VDate _ => true
  | TDatetime, VDatetime _ => true
  | TListStr, VList l => forallb is_str l
  | TLiteral allowed, VStr s => existsb (String.eqb s) allowed
  | _, _ => false
  end.

(** [None] and literals admit no coercion. *)
Definition coercible (t : atom) : bool :=
  match t with TNone | TLiteral _ => false | _ => true end.

(** What lies outside the two files. *)
Class Externals := {
  (** pydantic's lax mode: the coercion of a value that is not yet of any
      member type (["5"] to [5], ["2024-01-01"] to a date, ...), or [None]
      when the value is refused.  Only coercible members are passed. *)
  lax : annotation -> pyval -> option pyval;
  (** validation of the fields [symbol] and [limit], which the query models
      inherit from the standard [PriceTargetQueryParams] *)
  standard_symbol : dict -> result pyval;
  standard_limit : dict -> result pyval;
  (** [datetime.strptime(s, format)]; [None] stands for its [ValueError] *)
  strptime : string -> string -> option datetime;
  (** pydantic's typed validation of a prepared mapping against the
      annotations of the named data model: the attributes of the record *)
  typed_data : string -> dict -> result dict;
  (** the alias that the configuration of the base class [Data] gives a
      field without an alias of its own, and under which pydantic looks for
      the field before it looks under its name *)
  alias_generator : string -> string;
}.

(** A [ValueError] raised inside a validator is reported by pydantic as a
    validation failure; other exceptions pass through. *)
Definition reported {A} (r : result A) : result A :=
  match r with
  | Raise ValueError => Raise ValidationError
  | _ => r
  end.

Section Validation.
Context `{Externals}.

(** Validation of a raw value against an annotation: an exact match wins,
    then the lax coercions are tried. *)
Definition validate (a : annotation) (v : pyval) : result pyval :=
  if existsb (fun t => matches t v) a then OK v
  else match List.filter coercible a with
       | [] => Raise ValidationError
       | ts => match lax ts v with
               | Some v' => OK v'
               | None => Raise ValidationError
               end
       end.

(** The argument given for a field: pydantic looks under the alias, then
    under the field's own name. *)
Definition argument (params : dict) (name : string) (alias : option string) : option pyval :=
  match alias with
  | Some a => match Dict.get a params with
              | Some v => Some v
              | None => Dict.get name params
              end
  | None => Dict.get name params
  end.

(** One field of a model: the default is taken as it is; a given value runs
    through the [mode="before"] validator, the annotation and the
    [mode="after"] validator. *)
Definition field (params : dict) (name : string) (alias : option string)
    (before : pyval -> result pyval) (a : annotation)
    (after : pyval -> result pyval) (default : pyval) : result pyval :=
  match argument params name alias with
  | None => OK default
  | Some v => v1 ← reported (before v); v2 ← validate a v1; reported (after v2)
  end.

End Validation.

(** pydantic validates all fields and reports the failed ones together, so a
    [ValidationError] of one field lets the following fields run; any other
    exception leaves at once. *)
Definition then_field {A B} (spare : A) (r : result A) (k : A -> result B) : result B :=
  match r with
  | OK v => k v
  | Raise ValidationError =>
      match k spare with
      | OK _ | Raise ValidationError => Raise ValidationError
      | Raise e => Raise e
      end
  | Raise e => Raise e
  end.

Notation "x ←field r ; k" := (then_field VNone r (fun x => k))
  (at level 20, r at level 100, k at level 200, only parsing).

(** A [mode="before"] field validator at work on a raw mapping: the value
    found for the field (under the alias, else under the name) is replaced by
    what the validator returns. *)
Definition validate_before (name : string) (alias : option string)
    (f : pyval -> result pyval) (values : dict) : result dict :=
  let key := match alias with
             | Some a => match Dict.get a values with Some _ => a | None => name end
             | None => name
             end in
  match Dict.get key values with
  | Some v => v' ← reported (f v); OK (Dict.setitem key v' values)
  | None => OK values
  end.

Definition no_validator (v : pyval) : result pyval := OK v.

(** * Benzinga *)

(** [COVERAGE_DICT] *)
Definition COVERAGE_DICT : list (string * string) :=
  [ ("downgrades", "Downgrades");
    ("maintains", "Maintains");
    ("reinstates", "Reinstates");
    ("reiterates", "Reiterates");
    ("upgrades", "Upgrades");
    ("assumes", "Assumes");
    ("initiates", "Initiates Coverage On");
    ("terminates", "Terminates Coverage On");
    ("removes", "Removes");
    ("suspends", "Suspends");
    ("firm_dissolved", "Firm Dissolved") ].

(** [d[k]] for a dictionary of strings. *)
Fixpoint lookup_str (k : string) (d : list (string * string)) : option string :=
  match d with
  | [] => None
  | (k', v) :: d' => if String.eqb k k' then Some v else lookup_str k d'
  end.

Module BenzingaPriceTargetQueryParams.

(** The instance, one attribute per field. *)
Record t := mk {
  symbol : pyval;
  limit : pyval;
  page : pyval;
  date : pyval;
  start_date : pyval;
  end_date : pyval;
  updated : pyval;
  importance : pyval;
  action : pyval;
  analyst_ids : pyval;
  firm_ids : pyval;
  fields : pyval;
}.

(** The [Literal] of the [action] field. *)
Definition action_literals : list string :=
  [ "downgrades"; "maintains"; "reinstates"; "reiterates"; "upgrades";
    "assumes"; "initiates"; "terminates"; "removes"; "suspends";
    "firm_dissolved" ].

(** [COVERAGE_DICT[v] if v else None] *)
Definition convert_action (v : pyval) : result pyval :=
  if truthy v then
    match v with
    | VStr s => match lookup_str s COVERAGE_DICT with
                | Some wire => OK (VStr wire)
                | None => Raise KeyError
                end
    | VList _ | VDict _ => Raise TypeError        (* unhashable *)
    | _ => Raise KeyError
    end
  else OK VNone.

(** The validator of [updated]. *)
Definition date_validate (v : pyval) : result pyval :=
  match v with
  | VDatetime dt =>
      (* v.replace(tzinfo=timezone.utc) *)
      let v := mkDatetime (dt_date dt) (dt_time dt) true in
      OK (VInt (int_timestamp v))
  | VDate d =>
      (* datetime.combine(v, time(), tzinfo=timezone.utc) *)
      let v := mkDatetime d time_min true in
      OK (VInt (int_timestamp v))
  | _ => OK VNone
  end.

(** The strings of a list, if all its items are strings. *)
Fixpoint strings_of (l : list pyval) : option (list string) :=
  match l with
  | [] => Some []
  | VStr s :: l' => option_map (cons s) (strings_of l')
  | _ :: _ => None
  end.

(** The validator of [fields], [firm_ids] and [analyst_ids]. *)
Definition convert_list (v : pyval) : result pyval :=
  match v with
  | VStr s => OK v
  | _ =>
      if truthy v then
        (* ",".join(v) *)
        match v with
        | VList l => match strings_of l with
                     | Some ss => OK (VStr (join "," ss))
                     | None => Raise TypeError
                     end
        | VDict d => OK (VStr (join "," (Dict.keys d)))
        | _ => Raise TypeError
        end
      else OK VNone
  end.

Section Construction.
Context `{Externals}.

Definition page_field params :=
  field params "page" None no_validator [TInt; TNone] no_validator (VInt 0).
Definition date_field params :=
  field params "date" (Some "parameters[date]") no_validator [TDate; TNone] no_validator VNone.
Definition start_date_field params :=
  field params "start_date" (Some "parameters[date_from]") no_validator [TDate; TNone] no_validator VNone.
Definition end_date_field params :=
  field params "end_date" (Some "parameters[date_to]") no_validator [TDate; TNone] no_validator VNone.
Definition updated_field params :=
  field params "updated" (Some "parameters[updated]") no_validator [TDate; TInt; TNone] date_validate VNone.
Definition importance_field params :=
  field params "importance" (Some "parameters[importance]") no_validator [TInt; TNone] no_validator VNone.
Definition action_field params :=
  field params "action" (Some "parameters[action]") no_validator
    [TNone; TLiteral action_literals] convert_action VNone.
Definition analyst_ids_field params :=
  field params "analyst_ids" (Some "parameters[analyst_id]") convert_list [TListStr; TStr; TNone] no_validator VNone.
Definition firm_ids_field params :=
  field params "firm_ids" (Some "parameters[firm_id]") convert_list [TListStr; TStr; TNone] no_validator VNone.
Definition fields_field params :=
  field params "fields" None convert_list [TListStr; TStr; TNone] no_validator VNone.

(** The constructor, called with the mapping unpacked as keyword
    arguments: the inherited fields first, then the fields in the order
    of the class body. *)
Definition construct (params : dict) : result t :=
  symbol ←field standard_symbol params;
  limit ←field standard_limit params;
  page ←field page_field params;
  date ←field date_field params;
  start_date ←field start_date_field params;
  end_date ←field end_date_field params;
  updated ←field updated_field params;
  importance ←field importance_field params;
  action ←field action_field params;
  analyst_ids ←field analyst_ids_field params;
  firm_ids ←field firm_ids_field params;
  fields ←field fields_field params;
  OK (mk symbol limit page date start_date end_date updated importance
         action analyst_ids firm_ids fields).

End Construction.

End BenzingaPriceTargetQueryParams.

(** ** The base class of the data models *)

(** Modelled from the spec: the base class [Data] of openbb_core, which both
    data models inherit from and which is not among the sources.  A data
    record comes "with its own alias map translating provider response keys
    to canonical field names": a key that the alias map gives as the
    provider's key of a field is replaced by the name of the field, every
    other key is kept. *)
Definition canonical (alias_dict : list (string * string)) (k : string) : string :=
  match find (fun entry => String.eqb entry.2 k) alias_dict with
  | Some entry => entry.1
  | None => k
  end.

Definition use_alias (alias_dict : list (string * string)) (values : dict) : dict :=
  Dict.comprehension (fun k v => (canonical alias_dict k, v)) values.

Module BenzingaPriceTargetData.

Definition __alias_dict__ : list (string * string) :=
  [ ("symbol", "ticker");
    ("published_date", "date");
    ("adj_price_target", "adjusted_pt_current");
    ("price_target", "pt_current");
    ("price_target_previous", "pt_prior");
    ("previous_adj_price_target", "adjusted_pt_prior");
    ("published_time", "time");
    ("analyst_firm", "analyst");
    ("company_name", "name");
    ("rating_previous", "rating_prior");
    ("url_analyst", "url") ].

Section Validators.
Context `{Externals}.

(** The validator of [published_date]. *)
Definition parse_date (v : pyval) : result pyval :=
  if truthy v then
    match v with
    | VStr s => match strptime s "%Y-%m-%d" with
                | Some dt => OK (VDate (dt_date dt))
                | None => Raise ValueError
                end
    | _ => Raise TypeError
    end
  else OK VNone.

(** The validator of [last_updated]. *)
Definition validate_date (v : pyval) : result pyval :=
  if truthy v then
    match v with
    | VInt t =>
        dt ← fromtimestamp t;
        OK (if time_eqb (dt_time dt) time_min then VDate (dt_date dt) else VDatetime dt)
    | VBool b =>
        dt ← fromtimestamp (Z.b2z b);
        OK (if time_eqb (dt_time dt) time_min then VDate (dt_date dt) else VDatetime dt)
    | _ => Raise TypeError
    end
  else OK v.

(** [None] if [v] equals the empty string, else [v]. *)
Definition none_if_empty (v : pyval) : pyval :=
  match v with
  | VStr s => if String.eqb s EmptyString then VNone else v
  | _ => v
  end.

(** The [mode="before"] model validator. *)
Definition replace_empty_strings (values : dict) : dict :=
  Dict.comprehension (fun k v => (k, none_if_empty v)) values.

(** The mapping after the [mode="before"] model validators: the one of the
    class, then the one of the base class. *)
Definition normalize (item : dict) : dict :=
  use_alias __alias_dict__ (replace_empty_strings item).

(** The mapping that the typed validation of the inherited fields works on:
    [published_date], a field of the standard model, has met [parse_date]. *)
Definition prepare (item : dict) : result dict :=
  validate_before "published_date" (Some (alias_generator "published_date"))
    parse_date (normalize item).

(** The field [last_updated] as the class declares it: looked for under its
    alias [updated], then under its name; [validate_date] runs before the
    annotation [Optional[datetime]]; the default is [None]. *)
Definition last_updated_field (values : dict) : result pyval :=
  field values "last_updated" (Some "updated") validate_date [TDatetime; TNone]
    no_validator VNone.

(** [BenzingaPriceTargetData.model_validate(item)]: the record of the typed
    validation, with the field [last_updated] as declared here. *)
Definition model_validate (item : dict) : result dict :=
  let values := normalize item in
  then_field values (prepare item) (fun prepared =>
  then_field [] (typed_data "BenzingaPriceTargetData" prepared) (fun record =>
  then_field VNone (last_updated_field values) (fun last_updated =>
  OK (Dict.setitem "last_updated" last_updated record)))).

End Validators.

End BenzingaPriceTargetData.

(** * FMP *)

Module FMPPriceTargetQueryParams.

Record t := mk {
  symbol : pyval;
  limit : pyval;
  with_grade : pyval;
}.

Definition set_symbol (s : pyval) (q : t) : t :=
  mk s (limit q) (with_grade q).

Section Construction.
Context `{Externals}.

Definition with_grade_field params :=
  field params "with_grade" None no_validator [TBool] no_validator (VBool false).

Definition construct (params : dict) : result t :=
  symbol ←field standard_symbol params;
  limit ←field standard_limit params;
  with_grade ←field with_grade_field params;
  OK (mk symbol limit with_grade).

End Construction.

End FMPPriceTargetQueryParams.

Module FMPPriceTargetData.

Definition __alias_dict__ : list (string * string) :=
  [ ("analyst_firm", "gradingCompany");
    ("rating_current", "newGrade");
    ("rating_previous", "previousGrade");
    ("news_title", "newsTitle");
    ("url_news", "newsURL");
    ("url_base", "newsBaseURL") ].

Section Validators.
Context `{Externals}.

(** The validator of [published_date]. *)
Definition validate_date (v : pyval) : result pyval :=
  match v with
  | VStr s =>
      let v := remove_char newline s in
      match strptime v "%Y-%m-%dT%H:%M:%S.%fZ" with
      | Some dt => OK (VDatetime dt)
      | None => Raise ValueError
      end
  | VDate _ | VDatetime _ => Raise TypeError    (* their replace takes no strings *)
  | _ => Raise AttributeError
  end.

(** The mapping that the typed validation works on: the keys are those of
    the base class, and [published_date], the one field with a validator,
    has met [validate_date]. *)
Definition prepare (item : dict) : result dict :=
  validate_before "published_date" (Some (alias_generator "published_date"))
    validate_date (use_alias __alias_dict__ item).

(** [FMPPriceTargetData.model_validate(item)] *)
Definition model_validate (item : dict) : result dict :=
  then_field (use_alias __alias_dict__ item) (prepare item)
    (typed_data "FMPPriceTargetData").

End Validators.

End FMPPriceTargetData.

(** * The fetchers *)

(** The network and the URL helpers. *)
Class Network := {
  (** the answer of the upstream service to a GET of the URL, decoded and
      put in a list by the request helper *)
  upstream : string -> result (list pyval);
  (** [get_querystring(query.model_dump(by_alias=True), [])] *)
  get_querystring : BenzingaPriceTargetQueryParams.t -> string;
  (** [create_url(version, endpoint, api_key, query, exclude)] of the FMP
      helpers; [None] is an absent key *)
  create_url : Z -> string -> option string -> FMPPriceTargetQueryParams.t ->
               list string -> string;
}.

(** The extraction steps run against the query object they are handed (the
    caller's object, not a copy) and the network. *)
Section Fetch.
Context {Q : Type} `{Network}.

Record world := mkWorld {
  query : Q;                (* the query object *)
  issued : list string;     (* the URLs requested so far *)
}.

Definition fetch (A : Type) : Type := world -> result A * world.

Definition pure {A} (a : A) : fetch A := fun w => (OK a, w).

Definition raise {A} (e : exn) : fetch A := fun w => (Raise e, w).

Definition and_then {A B} (m : fetch A) (k : A -> fetch B) : fetch B :=
  fun w => match m w with
           | (OK a, w') => k a w'
           | (Raise e, w') => (Raise e, w')
           end.

(** Reading the query object. *)
Definition read : fetch Q := fun w => (OK (query w), w).

(** Assigning to an attribute of the query object. *)
Definition assign (f : Q -> Q) : fetch unit :=
  fun w => (OK tt, mkWorld (f (query w)) (issued w)).

(** One GET. *)
Definition request (url : string) : fetch (list pyval) :=
  fun w => (upstream url, mkWorld (query w) (issued w ++ [url])%list).

End Fetch.
Arguments world : clear implicits.
Arguments fetch : clear implicits.

Notation "x ←await m ; k" := (and_then m (fun x => k))
  (at level 20, m at level 100, k at level 200, only parsing).

(** [credentials.get(key)] if [credentials] is truthy, else the empty string. *)
Definition credential (credentials : option (list (string * string))) (key : string)
  : option string :=
  match credentials with
  | None | Some [] => Some EmptyString
  | Some c => lookup_str key c
  end.

(** [str(x)] of an optional string, as an f-string formats it. *)
Definition format_str (x : option string) : string :=
  match x with Some s => s | None => "None" end.

Module BenzingaPriceTargetFetcher.

Section Fetcher.
Context `{Externals} `{Network}.

Definition transform_query (params : dict) : result BenzingaPriceTargetQueryParams.t :=
  BenzingaPriceTargetQueryParams.construct params.

Definition base_url : string := "https://api.benzinga.com/api/v2.1/calendar/ratings".

(** The [url] of [aextract_data]. *)
Definition request_url (credentials : option (list (string * string)))
    (query : BenzingaPriceTargetQueryParams.t) : string :=
  let token := credential credentials "benzinga_api_key" in
  let querystring := get_querystring query in
  base_url ++ "?" ++ querystring ++ "&token=" ++ format_str token.

Definition aextract_data (credentials : option (list (string * string)))
  : fetch BenzingaPriceTargetQueryParams.t pyval :=
  query ←await read;
  let url := request_url credentials query in
  data ←await request url;
  match data with
  | [] => raise EmptyDataError
  | first :: _ =>
      (* data[0].get("ratings") *)
      match first with
      | VDict d => pure (default VNone (Dict.get "ratings" d))
      | _ => raise AttributeError
      end
  end.

(** The loop of [transform_data], [results] being the list built so far. *)
Fixpoint transform_loop (data : list dict) (results : list dict) : result (list dict) :=
  match data with
  | [] => OK results
  | item :: data' =>
      let item := Dict.pop "url_calendar" item in
      r ← BenzingaPriceTargetData.model_validate item;
      transform_loop data' (results ++ [r])%list
  end.

Definition transform_data (query : BenzingaPriceTargetQueryParams.t) (data : list dict)
  : result (list dict) :=
  transform_loop data [].

End Fetcher.

End BenzingaPriceTargetFetcher.

Module FMPPriceTargetFetcher.

Section Fetcher.
Context `{Externals} `{Network}.

Definition transform_query (params : dict) : result FMPPriceTargetQueryParams.t :=
  FMPPriceTargetQueryParams.construct params.

(** Modelled from the spec: [get_data_urls] of the FMP helpers, which is
    not among the sources.  The extraction "may issue multiple concurrent
    HTTP requests (one per symbol, batched via a helper that awaits a set
    of requests together)" and "concatenates results in input order"; "a
    single failed HTTP call propagates as a terminal error for that
    request".  So: every URL is requested, and the answers are
    concatenated in the order of the URLs unless one of them failed. *)
Fixpoint get_data_urls {Q} (urls : list string) : fetch Q (list pyval) :=
  match urls with
  | [] => pure []
  | url :: urls' =>
      fun w =>
        let (first, w1) := request url w in
        let (others, w2) := get_data_urls urls' w1 in
        (records ← first; more ← others; OK (records ++ more)%list, w2)
  end.

(** The loop body of [aextract_data]; [urls] is the list built so far. *)
Definition add_url (endpoint : string) (api_key : option string)
    (urls : list string) (symbol : string)
  : fetch FMPPriceTargetQueryParams.t (list string) :=
  _ ←await assign (FMPPriceTargetQueryParams.set_symbol (VStr symbol));
  query ←await read;
  pure (urls ++ [create_url 4 endpoint api_key query ["limit"]])%list.

Fixpoint build_urls (endpoint : string) (api_key : option string)
    (symbols : list string) (urls : list string)
  : fetch FMPPriceTargetQueryParams.t (list string) :=
  match symbols with
  | [] => pure urls
  | symbol :: symbols' =>
      urls ←await add_url endpoint api_key urls symbol;
      build_urls endpoint api_key symbols' urls
  end.

(** The [endpoint] of [aextract_data]. *)
Definition endpoint_of (query : FMPPriceTargetQueryParams.t) : string :=
  if truthy (FMPPriceTargetQueryParams.with_grade query)
  then "upgrades-downgrades" else "price-target".

Definition aextract_data (credentials : option (list (string * string)))
  : fetch FMPPriceTargetQueryParams.t (list pyval) :=
  let api_key := credential credentials "fmp_api_key" in
  query ←await read;
  let endpoint := endpoint_of query in
  match FMPPriceTargetQueryParams.symbol query with
  | VStr symbol =>
      urls ←await build_urls endpoint api_key (split comma symbol) [];
      get_data_urls urls
  | _ => raise AttributeError
  end.

(** [{k if k != "analystCompany" else "analyst_firm": v for k, v in item.items()}] *)
Definition new_item (item : dict) : dict :=
  Dict.comprehension
    (fun k v => (if negb (String.eqb k "analystCompany") then k else "analyst_firm", v))
    item.

Fixpoint transform_loop (data : list dict) (results : list dict) : result (list dict) :=
  match data with
  | [] => OK results
  | item :: data' =>
      r ← FMPPriceTargetData.model_validate (new_item item);
      transform_loop data' (results ++ [r])%list
  end.

Definition transform_data (query : FMPPriceTargetQueryParams.t) (data : list dict)
  : result (list dict) :=
  transform_loop data [].

End Fetcher.

End FMPPriceTargetFetcher.

(** ** A concrete platform, on which the model runs *)

(** [c.upper()] of a letter. *)
Definition upper (c : ascii) : ascii :=
  let n := nat_of_ascii c in
  if (97 <=? n)%nat && (n <=? 122)%nat then ascii_of_nat (n - 32) else c.

(** pydantic's [to_camel] on a snake-case name in lower-case letters: the
    underscores go, and the letter after each is put in upper case. *)
Fixpoint camel (after_underscore : bool) (name : string) : string :=
  match name with
  | EmptyString => EmptyString
  | String c name' =>
      if Ascii.eqb c "_"%char then camel true name'
      else String (if after_underscore then upper c else c) (camel false name')
  end.

Definition to_camel (name : string) : string := camel false name.

(** pydantic without coercions, a standard model that takes [symbol] and
    [limit] as they come, a [strptime] that refuses everything, a typed
    validation that accepts every mapping, and camel-case aliases. *)
Definition strict_python : Externals := {|
  lax := fun _ _ => None;
  standard_symbol := fun params => OK (default VNone (Dict.get "symbol" params));
  standard_limit := fun params => OK (default (VInt 200) (Dict.get "limit" params));
  strptime := fun _ _ => None;
  typed_data := fun _ d => OK d;
  alias_generator := to_camel;
|}.

(** The same, with the one coercion of pydantic that the field
    [last_updated] meets: a date given for a [datetime] becomes the datetime
    of its midnight, without a time zone. *)
Definition lenient_python : Externals := {|
  lax := fun ts v =>
    match ts, v with
    | [TDatetime], VDate d => Some (VDatetime (mkDatetime d time_min false))
    | _, _ => None
    end;
  standard_symbol := fun params => OK (default VNone (Dict.get "symbol" params));
  standard_limit := fun params => OK (default (VInt 200) (Dict.get "limit" params));
  strptime := fun _ _ => None;
  typed_data := fun _ d => OK d;
  alias_generator := to_camel;
|}.

(** A network that answers from a table; the FMP URL is the endpoint
    followed by the symbol. *)
Definition canned_network (answer : string -> result (list pyval)) : Network := {|
  upstream := answer;
  get_querystring := fun _ => EmptyString;
  create_url := fun _ endpoint _ query _ =>
    match FMPPriceTargetQueryParams.symbol query with
    | VStr s => endpoint ++ "/" ++ s
    | _ => endpoint
    end;
|}.

Definition sample_benzinga_query : BenzingaPriceTargetQueryParams.t :=
  BenzingaPriceTargetQueryParams.mk (VStr "AAPL") (VInt 200) (VInt 0) VNone VNone VNone
    VNone VNone VNone VNone VNone VNone.

Definition sample_fmp_query : FMPPriceTargetQueryParams.t :=
  FMPPriceTargetQueryParams.mk (VStr "AAPL,MSFT") (VInt 200) (VBool false).

(** Two symbols known upstream, one with one record and one with two. *)
Definition sample_fmp_upstream (url : string) : result (list pyval) :=
  if String.eqb url "price-target/AAPL" then
    OK [VDict [("symbol", VStr "AAPL"); ("priceTarget", VInt 250)]]
  else if String.eqb url "price-target/MSFT" then
    OK [VDict [("symbol", VStr "MSFT"); ("priceTarget", VInt 500)];
        VDict [("symbol", VStr "MSFT"); ("priceTarget", VInt 510)]]
  else Raise RequestError.

(** ** Notions of the specification *)

(** The payload of the ratings endpoint carries no rating: nothing came
    back, or the first element has an empty ["ratings"] list. *)
Definition zero_ratings (data : list pyval) : Prop :=
  data = [] \/ exists d rest, data = VDict d :: rest /\ Dict.get "ratings" d = Some (VList []).

(** An [action] argument that is none of the supported codes ([None] is the
    absence of an argument). *)
Definition unsupported_action (v : pyval) : Prop :=
  v <> VNone /\ forall code, v = VStr code -> ~ In code BenzingaPriceTargetQueryParams.action_literals.

(** The only way to fail is a validation failure. *)
Definition fails_only_validation {A} (r : result A) : Prop :=
  forall e, r = Raise e -> e = ValidationError.

(** pydantic's coercion of a date given for a [datetime]: the datetime of
    its midnight, without a time zone. *)
Definition coerces_dates `{Externals} : Prop :=
  forall d, lax [TDatetime] (VDate d) = Some (VDatetime (mkDatetime d time_min false)).

(** No other key of the record stands for the same field as [k]. *)
Definition unrivalled (alias_dict : list (string * string)) (item : dict) (k : string)
  : Prop :=
  forall k', In k' (Dict.keys item) ->
             canonical alias_dict k' = canonical alias_dict k -> k' = k.

(** ** The calendar that [datetime.date] keeps to *)

Definition is_leap (y : Z) : bool :=
  (y mod 4 =? 0) && (negb (y mod 100 =? 0) || (y mod 400 =? 0)).

Definition days_in_month (y m : Z) : Z :=
  if m =? 2 then (if is_leap y then 29 else 28)
  else if (m =? 4) || (m =? 6) || (m =? 9) || (m =? 11) then 30
  else 31.

(** The dates that exist: [date(year, month, day)] raises on all others. *)
Definition valid_date (d : dateType) : Prop :=
  1 ≤ year d ≤ 9999 ∧ 1 ≤ month d ≤ 12 ∧ 1 ≤ day d ≤ days_in_month (year d) (month d).

(** The day within its 400-year era, for a year of the era that starts in
    March, and back: the two halves of [days_of_date] and [date_of_days]
    that do not depend on the era. *)
Definition day_of_era (yoe m dd : Z) : Z :=
  yoe * 365 + yoe / 4 - yoe / 100 + ((153 * ((m + 9) mod 12) + 2) / 5 + dd - 1).

Definition civil_of_day_of_era (doe : Z) : Z * Z * Z :=
  let yoe := (doe - doe / 1460 + doe / 36524 - doe / 146096) / 365 in
  let doy := doe - (365 * yoe + yoe / 4 - yoe / 100) in
  let mp := (5 * doy + 2) / 153 in
  let d := doy - (153 * mp + 2) / 5 + 1 in
  let m := if mp <? 10 then mp + 3 else mp - 9 in
  (yoe, m, d).

(** [P] holds of the [n] integers from [lo] on. *)
Fixpoint forall_range (P : Z -> bool) (lo : Z) (n : nat) : bool :=
  match n with
  | O => true
  | S n' => P lo && forall_range P (lo + 1) n'
  end.

(** The day of a year that starts in March, for a month and a day. *)
Definition day_of_march_year (m dd : Z) : Z :=
  (153 * ((m + 9) mod 12) + 2) / 5 + dd - 1.

(** The round trip of one day of such a year: month and day are found again
    from the day of the year, which is the last one only for February 29. *)
Definition month_day_ok (m dd : Z) : bool :=
  if dd <=? days_in_month 0 m then
    let doy := day_of_march_year m dd in
    let mp := (5 * doy + 2) / 153 in
    (0 <=? doy) && (doy <=? 365)
    && ((if mp <? 10 then mp + 3 else mp - 9) =? m)
    && (doy - (153 * mp + 2) / 5 + 1 =? dd)
    && (negb (doy =? 365) || ((m =? 2) && (dd =? 29)))
  else true.

(** ** Notions used for the transform steps *)

(** The key under which [new_item] of FMP stores a pair. *)
Definition renamed (kv : string * pyval) : string * pyval :=
  (if negb (String.eqb kv.1 "analystCompany") then kv.1 else "analyst_firm", kv.2).

(** One of the two keys that end up as [analyst_firm]. *)
Definition is_analyst_key (k : string) : bool :=
  String.eqb k "analystCompany" || String.eqb k "analyst_firm".

(** The pairs of a comprehension as its function makes them. *)
Definition pairs_of (f : string -> pyval -> string * pyval) (d : dict) : dict :=
  map (fun kv => f kv.1 kv.2) d.

(** The [Literal] of the [action] field of [BenzingaPriceTargetData]. *)
Definition data_action_literals : list string :=
  [ "Downgrades"; "Maintains"; "Reinstates"; "Reiterates"; "Upgrades";
    "Assumes"; "Initiates Coverage On"; "Terminates Coverage On"; "Removes";
    "Suspends"; "Firm Dissolved" ].

(** The names and aliases under which the fields that
    [BenzingaPriceTargetQueryParams] declares are looked for. *)
Definition benzinga_argument_keys : list string :=
  [ "page";
    "date"; "parameters[date]";
    "start_date"; "parameters[date_from]";
    "end_date"; "parameters[date_to]";
    "updated"; "parameters[updated]";
    "importance"; "parameters[importance]";
    "action"; "parameters[action]";
    "analyst_ids"; "parameters[analyst_id]";
    "firm_ids"; "parameters[firm_id]";
    "fields" ].

(** * Properties *)

(** ** The calendar, on dates checked against [datetime] *)

Example days_of_leap_day : days_of_date (mkDate 2000 2 29) = 11016.
Proof. reflexivity. Qed.

Example days_before_the_epoch :
  days_of_date (mkDate 1900 3 1) = -25508 ∧ days_of_date (mkDate 1 1 1) = -719162.
Proof. split; reflexivity. Qed.

Example date_of_last_day : date_of_days 2932896 = mkDate 9999 12 31.
Proof. reflexivity. Qed.

Example fromtimestamp_before_the_epoch :
  fromtimestamp (-1) = OK (mkDatetime (mkDate 1969 12 31) (mkTime 23 59 59 0) true)
  ∧ fromtimestamp (-2203891195)
    = OK (mkDatetime (mkDate 1900 3 1) (mkTime 0 0 5 0) true).
Proof. split; reflexivity. Qed.

(** The float of [timestamp()] shows: late enough, a datetime one
    microsecond short of the next second rounds up to it. *)
Example int_timestamp_rounds :
  int_timestamp (mkDatetime (mkDate 9999 12 31) (mkTime 23 59 59 999999) true)
  = 253402300800
  ∧ int_timestamp (mkDatetime (mkDate 2024 2 29) (mkTime 23 59 59 999999) true)
    = 1709251199
  ∧ int_timestamp (mkDatetime (mkDate 1969 12 31) (mkTime 23 59 58 1) true) = -1.
Proof. split_and!; reflexivity. Qed.

Example split_examples :
  split comma "AAPL,MSFT" = ["AAPL"; "MSFT"]
  ∧ split comma EmptyString = [EmptyString]
  ∧ split comma "a,,b," = ["a"; EmptyString; "b"; EmptyString].
Proof. split_and!; reflexivity. Qed.

(** ** Dictionaries *)

Lemma get_setitem_eq k v d : Dict.get k (Dict.setitem k v d) = Some v.
Proof.
  induction d as [|[k' v'] d IH]; simpl.
  - by rewrite String.eqb_refl.
  - destruct (String.eqb_spec k k') as [->|Hne]; simpl.
    + by rewrite String.eqb_refl.
    + destruct (String.eqb_spec k k'); [done|]. apply IH.
Qed.

Lemma get_setitem_ne k k' v d :
  k ≠ k' → Dict.get k (Dict.setitem k' v d) = Dict.get k d.
Proof.
  intros Hne. induction d as [|[k0 v0] d IH]; simpl.
  - by destruct (String.eqb_spec k k').
  - destruct (String.eqb_spec k' k0) as [->|Hne0]; simpl.
    + by destruct (String.eqb_spec k k0).
    + destruct (String.eqb_spec k k0); [done|]. apply IH.
Qed.

Lemma setitem_fresh k v d :
  k ∉ Dict.keys d → Dict.setitem k v d = (d ++ [(k, v)])%list.
Proof.
  induction d as [|[k' v'] d IH]; simpl; [done|].
  rewrite not_elem_of_cons. intros [Hne Hd].
  destruct (String.eqb_spec k k'); [done|]. by rewrite IH.
Qed.

(** A concrete dictionary has no key twice. *)
Ltac dict_wf := unfold Dict.wf; apply (bool_decide_unpack _); by vm_compute.

(** A comprehension that keeps the keys maps the values, on a dictionary
    proper. *)
Lemma comprehension_values (g : pyval → pyval) d :
  Dict.wf d →
  Dict.comprehension (fun k v => (k, g v)) d = map (fun kv => (kv.1, g kv.2)) d.
Proof.
  unfold Dict.comprehension, Dict.wf.
  enough (∀ acc, NoDup (Dict.keys acc ++ Dict.keys d) →
    fold_left (fun acc kv => let '(k', v') := (kv.1, g kv.2) in Dict.setitem k' v' acc) d acc
    = (acc ++ map (fun kv => (kv.1, g kv.2)) d)%list) as Hgen.
  { intros Hd. apply (Hgen []). done. }
  induction d as [|[k v] d IH]; intros acc Hnd; simpl.
  - by rewrite app_nil_r.
  - simpl in Hnd. apply NoDup_app in Hnd as (Hacc & Hdisj & Hd).
    apply NoDup_cons in Hd as [Hk Hd].
    rewrite setitem_fresh.
    2:{ intros Hin. apply (Hdisj _ Hin). left. }
    rewrite IH.
    + by rewrite <- app_assoc.
    + unfold Dict.keys. rewrite map_app. simpl. rewrite <- app_assoc. simpl.
      apply NoDup_app. split_and!; [done| |by apply NoDup_cons].
      intros x Hx. apply Hdisj in Hx. done.
Qed.

Lemma get_map_values (g : pyval → pyval) k d :
  Dict.get k (map (fun kv => (kv.1, g kv.2)) d) = g <$> Dict.get k d.
Proof.
  induction d as [|[k' v'] d IH]; simpl; [done|].
  by destruct (String.eqb_spec k k').
Qed.

(** ** Collecting validation failures *)

Lemma then_field_ok_inv {A B} (spare : A) r (k : A → result B) b :
  then_field spare r k = OK b → ∃ a, r = OK a ∧ k a = OK b.
Proof.
  destruct r as [a|e]; simpl; [eauto|].
  destruct e; try discriminate. destruct (k spare) as [?|[]]; discriminate.
Qed.

Lemma then_field_fails_only_validation {A B} (spare : A) r (k : A → result B) :
  fails_only_validation r →
  (∀ a, fails_only_validation (k a)) →
  fails_only_validation (then_field spare r k).
Proof.
  intros Hr Hk e. destruct r as [a|e']; simpl; [apply Hk|].
  rewrite (Hr e' eq_refl).
  destruct (k spare) as [b|e''] eqn:Hks; [congruence|].
  rewrite (Hk _ _ Hks). congruence.
Qed.

Lemma not_ok_raises {A} (r : result A) :
  (∀ a, r ≠ OK a) → ∃ e, r = Raise e.
Proof. destruct r as [a|e]; [intros Hr; by destruct (Hr a)|eauto]. Qed.

(** ** The Benzinga query *)

Section BenzingaQuery.
Context `{Externals}.
Import BenzingaPriceTargetQueryParams.

(** Every literal of the [action] field is a key of [COVERAGE_DICT]. *)
Lemma convert_action_literal code :
  code ∈ action_literals →
  ∃ wire, lookup_str code COVERAGE_DICT = Some wire
          ∧ convert_action (VStr code) = OK (VStr wire).
Proof.
  revert code. apply Forall_forall. unfold action_literals.
  repeat constructor; eexists; split; reflexivity.
Qed.

(** Distinct literals have distinct wire strings. *)
Lemma coverage_injective code code' wire :
  code ∈ action_literals → code' ∈ action_literals →
  lookup_str code COVERAGE_DICT = Some wire →
  lookup_str code' COVERAGE_DICT = Some wire →
  code' = code.
Proof.
  intros Hc Hc'. revert wire. revert code' Hc'. revert code Hc.
  refine (proj1 (Forall_forall _ _) _). unfold action_literals.
  repeat (constructor; [refine (proj1 (Forall_forall _ _) _); unfold action_literals;
                        repeat (constructor; [vm_compute; congruence|]); constructor|]).
  constructor.
Qed.

Lemma literal_matches code :
  code ∈ action_literals →
  existsb (fun t => matches t (VStr code)) [TNone; TLiteral action_literals] = true.
Proof.
  intros Hin. cbn [existsb matches]. rewrite orb_false_r, orb_false_l.
  apply existsb_exists. exists code. split; [by apply list_elem_of_In|].
  apply String.eqb_refl.
Qed.

Lemma unsupported_matches v :
  unsupported_action v →
  existsb (fun t => matches t v) [TNone; TLiteral action_literals] = false.
Proof.
  intros [Hnone Hcode]. cbn [existsb]. rewrite orb_false_r.
  destruct v as [| | |s| | | |]; try done. cbn [matches orb].
  destruct (existsb (String.eqb s) action_literals) eqn:Hex; [|done].
  apply existsb_exists in Hex as (code & Hin & ->%String.eqb_eq).
  destruct (Hcode code eq_refl). done.
Qed.

Lemma action_field_supported params code :
  argument params "action" (Some "parameters[action]") = Some (VStr code) →
  code ∈ action_literals →
  action_field params = reported (convert_action (VStr code)).
Proof.
  intros Harg Hin. unfold action_field, field. rewrite Harg. simpl.
  unfold validate. by rewrite literal_matches.
Qed.

Lemma action_field_unsupported params v :
  argument params "action" (Some "parameters[action]") = Some v →
  unsupported_action v →
  action_field params = Raise ValidationError.
Proof.
  intros Harg Hv. unfold action_field, field. rewrite Harg. simpl.
  unfold validate. by rewrite unsupported_matches.
Qed.

(** A constructed query holds, field by field, what the fields validated
    to. *)
Lemma construct_ok_inv params q :
  construct params = OK q →
  standard_symbol params = OK (symbol q) ∧
  standard_limit params = OK (limit q) ∧
  page_field params = OK (page q) ∧
  date_field params = OK (date q) ∧
  start_date_field params = OK (start_date q) ∧
  end_date_field params = OK (end_date q) ∧
  updated_field params = OK (updated q) ∧
  importance_field params = OK (importance q) ∧
  action_field params = OK (action q) ∧
  analyst_ids_field params = OK (analyst_ids q) ∧
  firm_ids_field params = OK (firm_ids q) ∧
  fields_field params = OK (fields q).
Proof.
  unfold construct. intros Hq.
  repeat (apply then_field_ok_inv in Hq as (? & ? & Hq)).
  injection Hq as <-. by repeat split.
Qed.

Lemma construct_ok params symbol limit page date start_date end_date updated
    importance action analyst_ids firm_ids fields :
  standard_symbol params = OK symbol →
  standard_limit params = OK limit →
  page_field params = OK page →
  date_field params = OK date →
  start_date_field params = OK start_date →
  end_date_field params = OK end_date →
  updated_field params = OK updated →
  importance_field params = OK importance →
  action_field params = OK action →
  analyst_ids_field params = OK analyst_ids →
  firm_ids_field params = OK firm_ids →
  fields_field params = OK fields →
  construct params = OK (mk symbol limit page date start_date end_date updated
                            importance action analyst_ids firm_ids fields).
Proof. unfold construct. by intros -> -> -> -> -> -> -> -> -> -> -> ->. Qed.

Lemma validate_fails_only_validation a v : fails_only_validation (validate a v).
Proof.
  intros e. unfold validate.
  destruct (existsb _ a); [done|].
  destruct (List.filter coercible a); [congruence|].
  destruct (lax _ v); congruence.
Qed.

(** A field without validators of its own fails by validation only. *)
Lemma plain_field_fails_only_validation params name alias a dflt :
  fails_only_validation (field params name alias no_validator a no_validator dflt).
Proof.
  intros e. unfold field. destruct (argument params name alias) as [v|]; [|done].
  simpl. destruct (validate a v) eqn:Hv; simpl; [done|].
  intros [= <-]. by apply (validate_fails_only_validation _ _ _ Hv).
Qed.

Lemma updated_field_fails_only_validation params :
  fails_only_validation (updated_field params).
Proof.
  intros e. unfold updated_field, field.
  destruct (argument params _ _) as [v|]; [|done].
  simpl. destruct (validate _ v) as [v'|e'] eqn:Hv; simpl.
  - by destruct v'.
  - intros [= <-]. by apply (validate_fails_only_validation _ _ _ Hv).
Qed.

Lemma action_field_fails_only_validation params :
  fails_only_validation (action_field params).
Proof.
  intros e. unfold action_field, field.
  destruct (argument params _ _) as [v|]; [|done].
  simpl. unfold validate. cbn [existsb filter coercible].
  rewrite orb_false_r.
  destruct v as [| | |s| | | |]; cbn [matches orb]; try (cbv; congruence).
  destruct (existsb (String.eqb s) action_literals) eqn:Hex; [|cbv; congruence].
  apply existsb_exists in Hex as (code & Hin & ->%String.eqb_eq).
  apply list_elem_of_In, convert_action_literal in Hin as (wire & _ & Hwire).
  simpl. rewrite Hwire. done.
Qed.

End BenzingaQuery.

(** C5. For each of the eleven supported action codes, the query built from
    a mapping that gives this code as its [action] holds the wire string that
    [COVERAGE_DICT] has for the code; and among the supported codes only this
    one has that wire string, so the wire string tells the code. *)
Theorem action_code_reaches_its_wire_string `{Externals} code :
  code ∈ BenzingaPriceTargetQueryParams.action_literals →
  ∃ wire,
    lookup_str code COVERAGE_DICT = Some wire
    ∧ (∀ params,
         argument params "action" (Some "parameters[action]") = Some (VStr code) →
         BenzingaPriceTargetQueryParams.action_field params = OK (VStr wire)
         ∧ ∀ q, BenzingaPriceTargetFetcher.transform_query params = OK q →
                BenzingaPriceTargetQueryParams.action q = VStr wire)
    ∧ (∀ code', code' ∈ BenzingaPriceTargetQueryParams.action_literals →
                lookup_str code' COVERAGE_DICT = Some wire → code' = code).
Proof.
  intros Hin. destruct (convert_action_literal code Hin) as (wire & Hwire & Hconv).
  exists wire. split_and!; [done| |].
  - intros params Harg.
    assert (BenzingaPriceTargetQueryParams.action_field params = OK (VStr wire)) as Hfield.
    { rewrite (action_field_supported params code Harg Hin), Hconv. done. }
    split; [done|]. intros q Hq.
    apply construct_ok_inv in Hq. destruct_and!. congruence.
  - intros code' Hin' Hwire'. by eapply coverage_injective.
Qed.

Lemma action_code_reaches_its_wire_string_witness :
  "initiates" ∈ BenzingaPriceTargetQueryParams.action_literals
  ∧ ∃ wire,
      lookup_str "initiates" COVERAGE_DICT = Some wire
      ∧ (∀ params,
           @argument params "action" (Some "parameters[action]") = Some (VStr "initiates") →
           @BenzingaPriceTargetQueryParams.action_field strict_python params = OK (VStr wire)
           ∧ ∀ q, @BenzingaPriceTargetFetcher.transform_query strict_python params = OK q →
                  BenzingaPriceTargetQueryParams.action q = VStr wire)
      ∧ (∀ code', code' ∈ BenzingaPriceTargetQueryParams.action_literals →
                  lookup_str code' COVERAGE_DICT = Some wire → code' = "initiates").
Proof.
  assert ("initiates" ∈ BenzingaPriceTargetQueryParams.action_literals) as Hin.
  { apply list_elem_of_In. vm_compute. tauto. }
  split; [exact Hin|].
  exact (@action_code_reaches_its_wire_string strict_python "initiates" Hin).
Defined.

(** ** The list fields *)

Lemma strings_of_strings ss :
  BenzingaPriceTargetQueryParams.strings_of (map VStr ss) = Some ss.
Proof. induction ss as [|s ss IH]; simpl; [done|]. by rewrite IH. Qed.

Lemma convert_list_ok_shape v v' :
  BenzingaPriceTargetQueryParams.convert_list v = OK v' → v' = VNone ∨ is_str v' = true.
Proof.
  unfold BenzingaPriceTargetQueryParams.convert_list.
  destruct v as [|b|n|s|d|dt|l|d]; simpl.
  - intros [= <-]. by left.
  - destruct b; [done|]. intros [= <-]. by left.
  - destruct (negb (n =? 0)); [done|]. intros [= <-]. by left.
  - intros [= <-]. by right.
  - done.
  - done.
  - destruct l as [|x l]; [intros [= <-]; by left|].
    destruct (BenzingaPriceTargetQueryParams.strings_of (x :: l)); [|done].
    intros [= <-]. by right.
  - destruct d as [|x d]; [intros [= <-]; by left|]. intros [= <-]. by right.
Qed.

Lemma convert_list_raises_only_type_error v e :
  BenzingaPriceTargetQueryParams.convert_list v = Raise e → e = TypeError.
Proof.
  unfold BenzingaPriceTargetQueryParams.convert_list.
  destruct v as [|b|n|s|d|dt|l|d]; simpl; try congruence.
  - destruct b; congruence.
  - destruct (negb (n =? 0)); congruence.
  - destruct l as [|x l]; [done|].
    destruct (BenzingaPriceTargetQueryParams.strings_of (x :: l)); congruence.
  - destruct d; congruence.
Qed.

Section ListFields.
Context `{Externals}.

Lemma validate_none_or_string v :
  v = VNone ∨ is_str v = true → validate [TListStr; TStr; TNone] v = OK v.
Proof. intros [->|Hv]; [done|]. by destruct v. Qed.

Lemma list_field_shape params name alias v :
  field params name alias BenzingaPriceTargetQueryParams.convert_list
    [TListStr; TStr; TNone] no_validator VNone = OK v →
  v = VNone ∨ is_str v = true.
Proof.
  unfold field. destruct (argument params name alias) as [v0|]; [|intros [= <-]; by left].
  destruct (BenzingaPriceTargetQueryParams.convert_list v0) as [v1|e] eqn:Hv0.
  - apply convert_list_ok_shape in Hv0. cbn [reported mbind]. simpl.
    rewrite (validate_none_or_string _ Hv0). simpl. by intros [= <-].
  - by destruct e.
Qed.

Lemma list_field_raises params name alias e :
  field params name alias BenzingaPriceTargetQueryParams.convert_list
    [TListStr; TStr; TNone] no_validator VNone = Raise e →
  e = TypeError.
Proof.
  unfold field. destruct (argument params name alias) as [v0|]; [|done].
  destruct (BenzingaPriceTargetQueryParams.convert_list v0) as [v1|e0] eqn:Hv0.
  - apply convert_list_ok_shape in Hv0. simpl.
    rewrite (validate_none_or_string _ Hv0). simpl. done.
  - apply convert_list_raises_only_type_error in Hv0 as ->. simpl. congruence.
Qed.

End ListFields.

(** An exception other than a validation failure leaves [then_field] at
    once, and comes through the fields before it that fail, if at all, with
    a validation failure. *)
Lemma then_field_raises_now {A B} (spare : A) (k : A → result B) e :
  e ≠ ValidationError → then_field spare (Raise e) k = Raise e.
Proof. by destruct e. Qed.

Lemma then_field_raises_later {A B} (spare : A) r (k : A → result B) e :
  e ≠ ValidationError → fails_only_validation r → (∀ a, k a = Raise e) →
  then_field spare r k = Raise e.
Proof.
  intros He Hr Hk. destruct r as [a|e']; simpl; [apply Hk|].
  rewrite (Hr e' eq_refl), Hk. by destruct e.
Qed.

Lemma ok_fails_only_validation {A} (a : A) : fails_only_validation (OK a).
Proof. by intros e. Qed.

(** C8 (as the code has it).  A mapping whose [action] is none of the
    supported codes never yields a query: construction raises.  With
    inherited fields that fail, if at all, with a validation failure, what
    it raises is settled by the three list fields: the [TypeError] of
    [convert_list] when one of them holds a value that cannot be joined, a
    validation error when none does.  A mapping all of whose fields validate
    yields the query made of the validated values. *)
Theorem unsupported_action_is_refused `{Externals} params :
  (∀ v, argument params "action" (Some "parameters[action]") = Some v →
        unsupported_action v →
        ∃ e, BenzingaPriceTargetFetcher.transform_query params = Raise e
             ∧ (fails_only_validation (standard_symbol params) →
                fails_only_validation (standard_limit params) →
                let joined := [ BenzingaPriceTargetQueryParams.analyst_ids_field params;
                                BenzingaPriceTargetQueryParams.firm_ids_field params;
                                BenzingaPriceTargetQueryParams.fields_field params ] in
                (e = TypeError ∧ Exists (fun r => r = Raise TypeError) joined)
                ∨ (e = ValidationError ∧ Forall (fun r => ∃ v, r = OK v) joined)))
  ∧ (∀ symbol limit page date start_date end_date updated importance action
       analyst_ids firm_ids fields,
        standard_symbol params = OK symbol →
        standard_limit params = OK limit →
        BenzingaPriceTargetQueryParams.page_field params = OK page →
        BenzingaPriceTargetQueryParams.date_field params = OK date →
        BenzingaPriceTargetQueryParams.start_date_field params = OK start_date →
        BenzingaPriceTargetQueryParams.end_date_field params = OK end_date →
        BenzingaPriceTargetQueryParams.updated_field params = OK updated →
        BenzingaPriceTargetQueryParams.importance_field params = OK importance →
        BenzingaPriceTargetQueryParams.action_field params = OK action →
        BenzingaPriceTargetQueryParams.analyst_ids_field params = OK analyst_ids →
        BenzingaPriceTargetQueryParams.firm_ids_field params = OK firm_ids →
        BenzingaPriceTargetQueryParams.fields_field params = OK fields →
        BenzingaPriceTargetFetcher.transform_query params =
          OK (BenzingaPriceTargetQueryParams.mk symbol limit page date start_date
                end_date updated importance action analyst_ids firm_ids fields)).
Proof.
  split; [|intros; by apply construct_ok].
  intros v Harg Hv.
  pose proof (action_field_unsupported params v Harg Hv) as Haction.
  assert (∀ q, BenzingaPriceTargetFetcher.transform_query params ≠ OK q) as Hnot.
  { intros q Hq. apply construct_ok_inv in Hq. destruct_and!. congruence. }
  destruct (not_ok_raises _ Hnot) as [e He]. exists e. split; [done|].
  intros Hsymbol Hlimit joined. subst joined.
  assert (∀ r : result pyval, (∀ e', r = Raise e' → e' = TypeError) →
                              (∃ v', r = OK v') ∨ r = Raise TypeError) as Hcases.
  { intros [v'|e'] Hr; [left; by exists v'|right]. by rewrite (Hr e' eq_refl). }
  destruct (Hcases _ (list_field_raises params "analyst_ids" (Some "parameters[analyst_id]")))
    as [[analyst_ids Hanalyst]|Hanalyst];
    destruct (Hcases _ (list_field_raises params "firm_ids" (Some "parameters[firm_id]")))
      as [[firm_ids Hfirm]|Hfirm];
    destruct (Hcases _ (list_field_raises params "fields" None))
      as [[fields Hfields]|Hfields];
    fold (BenzingaPriceTargetQueryParams.analyst_ids_field params) in Hanalyst;
    fold (BenzingaPriceTargetQueryParams.firm_ids_field params) in Hfirm;
    fold (BenzingaPriceTargetQueryParams.fields_field params) in Hfields.
  1:{ right. split; [|repeat constructor; eauto].
      revert e He. unfold BenzingaPriceTargetFetcher.transform_query,
        BenzingaPriceTargetQueryParams.construct.
      rewrite Hanalyst, Hfirm, Hfields.
      repeat (apply then_field_fails_only_validation;
              [first [ assumption
                     | apply ok_fails_only_validation
                     | apply plain_field_fails_only_validation
                     | apply updated_field_fails_only_validation
                     | apply action_field_fails_only_validation ]
              | intros ? ]).
      by intros e. }
  all: left; split;
    [|rewrite !Exists_cons; rewrite ?Hanalyst, ?Hfirm, ?Hfields; tauto].
  all: enough (BenzingaPriceTargetFetcher.transform_query params = Raise TypeError)
         by congruence.
  all: unfold BenzingaPriceTargetFetcher.transform_query,
         BenzingaPriceTargetQueryParams.construct;
       rewrite Hanalyst, Hfirm, Hfields.
  all: repeat first
         [ apply then_field_raises_now; discriminate
         | apply then_field_raises_later;
           [ discriminate
           | first [ assumption
                   | apply ok_fails_only_validation
                   | apply plain_field_fails_only_validation
                   | apply updated_field_fails_only_validation
                   | apply action_field_fails_only_validation ]
           | intros ? ] ].
Qed.

Lemma unsupported_action_is_refused_witness :
  @BenzingaPriceTargetFetcher.transform_query strict_python
     [("symbol", VStr "AAPL"); ("action", VStr "buy")] = Raise ValidationError
  ∧ @BenzingaPriceTargetFetcher.transform_query strict_python
      [("symbol", VStr "AAPL"); ("action", VStr "buy"); ("firm_ids", VInt 5)]
    = Raise TypeError
  ∧ @BenzingaPriceTargetFetcher.transform_query strict_python
      [("symbol", VStr "AAPL"); ("action", VStr "upgrades"); ("page", VInt 2)] =
    OK (BenzingaPriceTargetQueryParams.mk (VStr "AAPL") (VInt 200) (VInt 2) VNone VNone
          VNone VNone VNone (VStr "Upgrades") VNone VNone VNone).
Proof.
  assert (unsupported_action (VStr "buy")) as Hbuy.
  { split; [discriminate|]. intros code [= <-]. vm_compute. intuition discriminate. }
  split_and!.
  - destruct (@unsupported_action_is_refused strict_python
                [("symbol", VStr "AAPL"); ("action", VStr "buy")]) as [Hbad _].
    destruct (Hbad (VStr "buy") eq_refl Hbuy) as (e & He & Hkind).
    destruct Hkind as [[_ Hjoin]|[-> _]]; [| | |exact He].
    + intros e' He'. vm_compute in He'. congruence.
    + intros e' He'. vm_compute in He'. congruence.
    + repeat (apply Exists_cons in Hjoin as [Hjoin|Hjoin];
              [vm_compute in Hjoin; discriminate|]).
      by apply Exists_nil in Hjoin.
  - destruct (@unsupported_action_is_refused strict_python
                [("symbol", VStr "AAPL"); ("action", VStr "buy"); ("firm_ids", VInt 5)])
      as [Hbad _].
    destruct (Hbad (VStr "buy") eq_refl Hbuy) as (e & He & Hkind).
    destruct Hkind as [[-> _]|[_ Hjoin]]; [| |exact He|].
    + intros e' He'. vm_compute in He'. congruence.
    + intros e' He'. vm_compute in He'. congruence.
    + apply Forall_cons in Hjoin as [_ Hjoin]. apply Forall_cons in Hjoin as [[v Hv] _].
      vm_compute in Hv. discriminate.
  - destruct (@unsupported_action_is_refused strict_python
                [("symbol", VStr "AAPL"); ("action", VStr "upgrades"); ("page", VInt 2)])
      as [_ Hgood].
    apply Hgood; reflexivity.
Defined.

(** The claim fails where another field raises an exception of its own: with
    an [action] that is refused and [fields] that [convert_list] cannot
    join, it is the [TypeError] of the latter that leaves the constructor. *)
Lemma unsupported_action_may_raise_type_error :
  ¬ (∀ (E : Externals) params v,
       @argument params "action" (Some "parameters[action]") = Some v →
       unsupported_action v →
       @BenzingaPriceTargetFetcher.transform_query E params = Raise ValidationError).
Proof.
  intros Hall.
  specialize (Hall strict_python [("action", VStr "buy"); ("fields", VInt 5)]
                (VStr "buy") eq_refl).
  discriminate Hall.
  split; [discriminate|]. intros code [= <-]. vm_compute. intuition discriminate.
Qed.

(** ** Timestamps of whole seconds *)

(** The float division is exact on a whole number of seconds. *)
Lemma true_divide_whole n q :
  0 < q → Z.abs n < 2 ^ 53 → int_of_float (true_divide (n * q) q) = n.
Proof.
  intros Hq Hn. unfold true_divide.
  destruct (Z.eqb_spec (n * q) 0) as [Hz|Hnz].
  { cbn. apply Z.mul_eq_0 in Hz. lia. }
  assert (n ≠ 0) as Hn0 by (intros ->; lia).
  rewrite Z.abs_mul, (Z.abs_eq q) by lia.
  set (a := Z.abs n) in *.
  assert (0 < a) as Ha by lia.
  set (e0 := Z.log2 (a * q) - Z.log2 q - 52).
  assert (e0 ≤ 1) as He0.
  { pose proof (Z.log2_mul_above a q ltac:(lia) ltac:(lia)).
    assert (Z.log2 a < 53) by (apply Z.log2_lt_pow2; lia). lia. }
  cbv zeta.
  set (e := if _ <? 2 ^ 52 then e0 - 1 else e0).
  assert (e ≤ 0) as He.
  { subst e.
    destruct (Z.ltb_spec
                ((if 0 <=? e0 then (a * q, q * 2 ^ e0) else (a * q * 2 ^ (- e0), q)).1 /
                 (if 0 <=? e0 then (a * q, q * 2 ^ e0) else (a * q * 2 ^ (- e0), q)).2)
                (2 ^ 52)) as [|Hge]; [lia|].
    destruct (Z.leb_spec 0 e0) as [Hpos|]; [|lia]. cbn [fst snd] in Hge.
    assert (e0 = 0 ∨ e0 = 1) as [->| ->] by lia; [lia|].
    exfalso. change (2 ^ 1) with 2 in Hge.
    rewrite <- Z.div_div, Z.div_mul in Hge by lia.
    assert (a / 2 < 2 ^ 52); [|lia].
    apply Z.div_lt_upper_bound; lia. }
  clearbody e. clear e0 He0.
  assert (Z.sgn (n * q) = Z.sgn n) as Hsgn.
  { rewrite Z.sgn_mul, (Z.sgn_pos q) by lia. lia. }
  destruct (Z.leb_spec 0 e) as [Hpos|Hneg]; cbn [fst snd].
  - assert (e = 0) as -> by lia. change (2 ^ 0) with 1. rewrite Z.mul_1_r.
    rewrite Z.div_mul, Z.mod_mul by lia.
    destruct (Z.ltb_spec (2 * 0) q); [|lia]. cbn [fst snd].
    unfold int_of_float. cbn [fst snd]. change (0 <=? 0) with true. cbv iota.
    change (2 ^ 0) with 1. rewrite Z.mul_1_r, Hsgn. subst a.
    rewrite Z.mul_comm. apply Z.abs_sgn.
  - assert (0 < 2 ^ (- e)) as Hpow by (apply Z.pow_pos_nonneg; lia).
    replace (a * q * 2 ^ (- e)) with (a * 2 ^ (- e) * q) by ring.
    rewrite Z.div_mul, Z.mod_mul by lia.
    destruct (Z.ltb_spec (2 * 0) q); [|lia].
    unfold int_of_float. cbn [fst snd].
    destruct (Z.leb_spec 0 e); [lia|].
    rewrite Hsgn, Z.mul_assoc, Z.quot_mul by lia. subst a.
    rewrite Z.mul_comm. apply Z.abs_sgn.
Qed.

(** A date of the calendar lies within four million days of the epoch. *)
Lemma days_of_date_bound d :
  1 ≤ year d ≤ 9999 → 1 ≤ month d ≤ 12 → 1 ≤ day d ≤ 31 →
  Z.abs (days_of_date d) < 4000000.
Proof.
  intros Hy Hm Hd. unfold days_of_date.
  destruct (Z.leb_spec (month d) 2); Z.div_mod_to_equations; lia.
Qed.

(** The two shapes that [date_validate] knows: a date becomes the timestamp
    of its midnight, a datetime without microseconds the timestamp of its
    wall-clock reading taken as UTC. *)
Lemma date_validate_of_date d :
  1 ≤ year d ≤ 9999 → 1 ≤ month d ≤ 12 → 1 ≤ day d ≤ 31 →
  BenzingaPriceTargetQueryParams.date_validate (VDate d)
  = OK (VInt (days_of_date d * 86400)).
Proof.
  intros Hy Hm Hd. pose proof (days_of_date_bound d Hy Hm Hd) as Hbound.
  unfold BenzingaPriceTargetQueryParams.date_validate, int_timestamp,
    microseconds_since_epoch, time_min.
  cbn [dt_date dt_time hour minute second microsecond].
  replace ((days_of_date d * 86400 + 0 * 3600 + 0 * 60 + 0) * 1000000 + 0)
    with (days_of_date d * 86400 * 1000000) by ring.
  rewrite true_divide_whole; [done|lia|]. change (2 ^ 53) with 9007199254740992. lia.
Qed.

Lemma date_validate_of_datetime dt :
  1 ≤ year (dt_date dt) ≤ 9999 → 1 ≤ month (dt_date dt) ≤ 12 → 1 ≤ day (dt_date dt) ≤ 31 →
  0 ≤ hour (dt_time dt) < 24 → 0 ≤ minute (dt_time dt) < 60 →
  0 ≤ second (dt_time dt) < 60 → microsecond (dt_time dt) = 0 →
  BenzingaPriceTargetQueryParams.date_validate (VDatetime dt)
  = OK (VInt (days_of_date (dt_date dt) * 86400 + hour (dt_time dt) * 3600
              + minute (dt_time dt) * 60 + second (dt_time dt))).
Proof.
  intros Hy Hm Hd Hh Hmi Hs Hus.
  pose proof (days_of_date_bound _ Hy Hm Hd) as Hbound.
  unfold BenzingaPriceTargetQueryParams.date_validate, int_timestamp,
    microseconds_since_epoch.
  cbn [dt_date dt_time hour minute second microsecond]. rewrite Hus, Z.add_0_r.
  rewrite true_divide_whole; [done|lia|]. change (2 ^ 53) with 9007199254740992. lia.
Qed.

(** C3 (what the code does with an epoch integer).  An integer given for
    [updated] passes the annotation as it is and then meets [date_validate],
    which knows dates and datetimes only: the query holds [None]. *)
Theorem epoch_integer_is_dropped `{Externals} (n : Z) :
  BenzingaPriceTargetQueryParams.date_validate (VInt n) = OK VNone
  ∧ BenzingaPriceTargetQueryParams.updated_field [("updated", VInt n)] = OK VNone
  ∧ ∀ q, BenzingaPriceTargetFetcher.transform_query [("updated", VInt n)] = OK q →
         BenzingaPriceTargetQueryParams.updated q = VNone.
Proof.
  assert (BenzingaPriceTargetQueryParams.updated_field [("updated", VInt n)] = OK VNone)
    as Hfield by reflexivity.
  split_and!; [done|done|].
  intros q Hq. apply construct_ok_inv in Hq. destruct_and!. congruence.
Qed.

(** The other two shapes are turned into the timestamp. *)
Example date_validate_date :
  BenzingaPriceTargetQueryParams.date_validate (VDate (mkDate 2024 1 1))
  = OK (VInt 1704067200).
Proof. reflexivity. Qed.

Example date_validate_datetime :
  BenzingaPriceTargetQueryParams.date_validate
    (VDatetime (mkDatetime (mkDate 2023 11 14) (mkTime 22 13 20 500000) false))
  = OK (VInt 1700000000).
Proof. reflexivity. Qed.

Example transform_query_epoch :
  @BenzingaPriceTargetFetcher.transform_query strict_python
    [("symbol", VStr "AAPL"); ("updated", VInt 1700000000)]
  = OK (BenzingaPriceTargetQueryParams.mk (VStr "AAPL") (VInt 200) (VInt 0) VNone VNone
          VNone VNone VNone VNone VNone VNone VNone).
Proof. reflexivity. Qed.

(** ** The data models *)

Lemma get_pop_ne k k' d : k ≠ k' → Dict.get k (Dict.pop k' d) = Dict.get k d.
Proof.
  intros Hne. induction d as [|[k0 v0] d IH]; simpl; [done|].
  destruct (String.eqb_spec k' k0) as [->|Hne0]; simpl.
  - by destruct (String.eqb_spec k k0).
  - destruct (String.eqb_spec k k0); [done|]. apply IH.
Qed.

Lemma keys_pop_subseteq k d : Dict.keys (Dict.pop k d) ⊆ Dict.keys d.
Proof.
  induction d as [|[k0 v0] d IH]; simpl; [done|].
  destruct (String.eqb k k0); simpl.
  - intros x Hx. by right.
  - intros x [->|Hx]%elem_of_cons; [left|right; by apply IH].
Qed.

Lemma wf_pop k d : Dict.wf d → Dict.wf (Dict.pop k d).
Proof.
  unfold Dict.wf. induction d as [|[k0 v0] d IH]; simpl; [done|].
  intros [Hk0 Hd]%NoDup_cons. destruct (String.eqb k k0); simpl; [done|].
  apply NoDup_cons. split; [|by apply IH].
  intros Hin. apply Hk0. by apply (keys_pop_subseteq k d).
Qed.

(** ** More on dictionaries *)

Lemma get_None_keys k d : Dict.get k d = None ↔ k ∉ Dict.keys d.
Proof.
  induction d as [|[k' v'] d IH]; simpl.
  - split; [intros _; apply not_elem_of_nil|done].
  - rewrite not_elem_of_cons. destruct (String.eqb_spec k k') as [->|Hne].
    + split; [done|]. by intros [? _].
    + rewrite IH. tauto.
Qed.

Lemma get_Some_wf k v d : Dict.wf d → Dict.get k d = Some v ↔ (k, v) ∈ d.
Proof.
  unfold Dict.wf. induction d as [|[k' v'] d IH]; simpl.
  - intros _. split; [done|]. by intros ?%elem_of_nil.
  - intros [Hk' Hd]%NoDup_cons. rewrite elem_of_cons.
    destruct (String.eqb_spec k k') as [->|Hne].
    + split; [intros [= ->]; by left|].
      intros [[= ->]|Hin]; [done|]. destruct Hk'.
      apply list_elem_of_fmap. by exists (k', v).
    + rewrite IH by done. split; [by right|]. by intros [[= ? ?]|?].
Qed.

Lemma elem_of_rev {A} (x : A) l : x ∈ rev l ↔ x ∈ l.
Proof. rewrite !list_elem_of_In. symmetry. apply in_rev. Qed.

Lemma get_rev_wf k d : Dict.wf d → Dict.get k (rev d) = Dict.get k d.
Proof.
  intros Hwf.
  assert (Dict.wf (rev d)) as Hwf'.
  { unfold Dict.wf, Dict.keys in *. rewrite map_rev. by apply NoDup_ListNoDup, NoDup_rev, NoDup_ListNoDup. }
  destruct (Dict.get k d) as [v|] eqn:Hget.
  - apply get_Some_wf; [done|]. apply elem_of_rev. by apply get_Some_wf.
  - apply get_None_keys. apply get_None_keys in Hget.
    unfold Dict.keys in *. rewrite map_rev. by rewrite elem_of_rev.
Qed.

Lemma get_app_singleton k k' v' d :
  Dict.get k (d ++ [(k', v')])%list
  = match Dict.get k d with
    | Some v => Some v
    | None => if String.eqb k k' then Some v' else None
    end.
Proof.
  induction d as [|[k0 v0] d IH]; simpl; [done|].
  by destruct (String.eqb_spec k k0).
Qed.


Lemma pop_absent k d : Dict.get k d = None → Dict.pop k d = d.
Proof.
  induction d as [|[k' v'] d IH]; simpl; [done|].
  destruct (String.eqb_spec k k'); [done|]. intros Hd. by rewrite IH.
Qed.

Lemma keys_setitem k v d :
  Dict.keys (Dict.setitem k v d)
  = if Dict.get k d is Some _ then Dict.keys d else (Dict.keys d ++ [k])%list.
Proof.
  induction d as [|[k' v'] d IH]; simpl; [done|].
  destruct (String.eqb_spec k k'); simpl; [done|].
  rewrite IH. by destruct (Dict.get k d).
Qed.

(** Storing a value keeps a dictionary a dictionary. *)
Lemma wf_setitem k v d : Dict.wf d → Dict.wf (Dict.setitem k v d).
Proof.
  unfold Dict.wf. intros Hwf. rewrite keys_setitem.
  destruct (Dict.get k d) eqn:Hget; [done|].
  apply NoDup_app. split_and!; [done| |apply NoDup_singleton].
  intros x Hx ->%list_elem_of_singleton. by apply get_None_keys in Hget.
Qed.

(** A comprehension always builds a dictionary, in which the last pair made
    for a key is the one that counts. *)
Lemma comprehension_fold f d acc :
  let built := fold_left (fun acc kv => let '(k', v') := f kv.1 kv.2 in
                                        Dict.setitem k' v' acc) d acc in
  (Dict.wf acc → Dict.wf built)
  ∧ ∀ k, Dict.get k built
         = match Dict.get k (rev (pairs_of f d)) with
           | Some v => Some v
           | None => Dict.get k acc
           end.
Proof.
  revert acc. induction d as [|[k0 v0] d IH]; intros acc; simpl; [done|].
  destruct (f k0 v0) as [k' v'] eqn:Hf.
  destruct (IH (Dict.setitem k' v' acc)) as [IHwf IHget]. split.
  - intros Hacc. by apply IHwf, wf_setitem.
  - intros k. rewrite IHget, get_app_singleton.
    destruct (Dict.get k (rev (pairs_of f d))); [done|].
    destruct (String.eqb_spec k k') as [->|Hne].
    + apply get_setitem_eq.
    + by apply get_setitem_ne.
Qed.

Lemma wf_comprehension f d : Dict.wf (Dict.comprehension f d).
Proof. apply (comprehension_fold f d []). apply NoDup_nil_2. Qed.

Lemma get_comprehension f d k :
  Dict.get k (Dict.comprehension f d) = Dict.get k (rev (pairs_of f d)).
Proof.
  unfold Dict.comprehension. destruct (comprehension_fold f d []) as [_ Hget].
  rewrite Hget. by destruct (Dict.get k (rev (pairs_of f d))).
Qed.

(** When the keys it makes are all different, a comprehension is a map. *)
Lemma comprehension_map f d :
  Dict.wf (pairs_of f d) → Dict.comprehension f d = pairs_of f d.
Proof.
  unfold Dict.comprehension, Dict.wf.
  enough (∀ acc, NoDup (Dict.keys acc ++ Dict.keys (pairs_of f d)) →
    fold_left (fun acc kv => let '(k', v') := f kv.1 kv.2 in Dict.setitem k' v' acc) d acc
    = (acc ++ pairs_of f d)%list) as Hgen.
  { intros Hd. apply (Hgen []). done. }
  induction d as [|[k v] d IH]; intros acc Hnd; simpl.
  - by rewrite app_nil_r.
  - change (pairs_of f ((k, v) :: d)) with (f k v :: pairs_of f d) in *.
    destruct (f k v) as [k' v'] eqn:Hf. simpl in Hnd.
    apply NoDup_app in Hnd as (Hacc & Hdisj & Hd).
    apply NoDup_cons in Hd as [Hk Hd].
    rewrite setitem_fresh.
    2:{ intros Hin. apply (Hdisj _ Hin). left. }
    rewrite IH.
    + by rewrite <- app_assoc.
    + unfold Dict.keys at 1. rewrite map_app. simpl. rewrite <- app_assoc. simpl.
      apply NoDup_app. split_and!; [done| |by apply NoDup_cons].
      intros x Hx. apply Hdisj in Hx. done.
Qed.

(** ** The Benzinga data model, further *)

Lemma none_if_empty_not_empty v :
  BenzingaPriceTargetData.none_if_empty v ≠ VStr EmptyString.
Proof.
  destruct v as [| | |s| | | |]; try done. simpl.
  destruct (String.eqb_spec s EmptyString); [done|]. congruence.
Qed.

Lemma none_if_empty_other v :
  v ≠ VStr EmptyString → BenzingaPriceTargetData.none_if_empty v = v.
Proof.
  destruct v as [| | |s| | | |]; try done. simpl.
  destruct (String.eqb_spec s EmptyString); [|done]. by intros []; subst.
Qed.

Lemma keys_map_values (g : pyval → pyval) d :
  Dict.keys (map (fun kv => (kv.1, g kv.2)) d) = Dict.keys d.
Proof. unfold Dict.keys. rewrite map_map. by apply map_ext. Qed.

Lemma reported_ok_inv {A} (r : result A) a : reported r = OK a → r = OK a.
Proof. by destruct r as [|[]]. Qed.

(** A field validator leaves the other keys alone. *)
Lemma validate_before_other name alias f values values' k :
  validate_before name alias f values = OK values' →
  k ≠ name → alias ≠ Some k →
  Dict.get k values' = Dict.get k values.
Proof.
  unfold validate_before. intros Hrun Hname Halias.
  set (key := match alias with
              | Some a => match Dict.get a values with Some _ => a | None => name end
              | None => name
              end) in *.
  assert (k ≠ key) as Hkey.
  { subst key. destruct alias as [a|]; [|done].
    destruct (Dict.get a values); [congruence|done]. }
  destruct (Dict.get key values) as [v|]; [|by injection Hrun as <-].
  destruct (reported (f v)) as [v'|e]; [|done].
  injection Hrun as <-. by apply get_setitem_ne.
Qed.

(** At the key it reads, it stores what the validator returns. *)
Lemma validate_before_alias name a f values values' v :
  validate_before name (Some a) f values = OK values' →
  Dict.get a values = Some v →
  ∃ v', f v = OK v' ∧ Dict.get a values' = Some v'.
Proof.
  unfold validate_before. intros Hrun Hv. rewrite Hv in Hrun. rewrite Hv in Hrun.
  destruct (reported (f v)) as [v'|e] eqn:Hf; [|done].
  injection Hrun as <-. exists v'. split; [by apply reported_ok_inv|].
  apply get_setitem_eq.
Qed.

(** A validator that returns [None] for [None] keeps a [None] in place. *)
Lemma validate_before_keeps_none name alias f values values' k :
  f VNone = OK VNone →
  validate_before name alias f values = OK values' →
  Dict.get k values = Some VNone →
  Dict.get k values' = Some VNone.
Proof.
  unfold validate_before. intros Hnone Hrun Hk.
  set (key := match alias with
              | Some a => match Dict.get a values with Some _ => a | None => name end
              | None => name
              end) in *.
  destruct (Dict.get key values) as [v|] eqn:Hv; [|by injection Hrun as <-].
  destruct (reported (f v)) as [v'|e] eqn:Hf; [|done].
  injection Hrun as <-.
  destruct (decide (k = key)) as [->|Hne].
  - rewrite get_setitem_eq. rewrite Hk in Hv. injection Hv as <-.
    rewrite Hnone in Hf. by injection Hf as <-.
  - by rewrite get_setitem_ne.
Qed.

(** ** Renaming the keys *)

Lemma get_renamed_pairs (rename : string → string) k (l : dict) :
  (∀ k', k' ∈ Dict.keys l → rename k' = rename k → k' = k) →
  Dict.get (rename k) (map (fun kv => (rename kv.1, kv.2)) l) = Dict.get k l.
Proof.
  induction l as [|[k0 v0] l IH]; intros Hk; simpl; [done|].
  destruct (String.eqb_spec k k0) as [->|Hne].
  - by rewrite String.eqb_refl.
  - destruct (String.eqb_spec (rename k) (rename k0)) as [Heq|_].
    + destruct Hne. symmetry. apply Hk; [by left|done].
    + apply IH. intros k' Hin. apply Hk. by right.
Qed.

(** A comprehension that renames the keys: a key that no other key is
    renamed like keeps its value, under its new name. *)
Lemma get_comprehension_renaming (rename : string → string) k d :
  Dict.wf d →
  (∀ k', k' ∈ Dict.keys d → rename k' = rename k → k' = k) →
  Dict.get (rename k) (Dict.comprehension (fun k v => (rename k, v)) d) = Dict.get k d.
Proof.
  intros Hwf Hk. rewrite get_comprehension. unfold pairs_of. rewrite <- map_rev.
  rewrite get_renamed_pairs; [by apply get_rev_wf|].
  intros k' Hin. apply Hk. unfold Dict.keys in *. rewrite map_rev in Hin.
  by apply elem_of_rev.
Qed.

(** A name that no key is renamed to is absent. *)
Lemma get_comprehension_fresh (rename : string → string) k d :
  (∀ k', k' ∈ Dict.keys d → rename k' ≠ k) →
  Dict.get k (Dict.comprehension (fun k v => (rename k, v)) d) = None.
Proof.
  intros Hk. rewrite get_comprehension. apply get_None_keys.
  unfold pairs_of, Dict.keys. rewrite map_rev, elem_of_rev, map_map. simpl.
  intros ([k' v'] & Heq & Hin)%list_elem_of_fmap. simpl in Heq.
  apply (Hk k'); [|done]. apply list_elem_of_fmap. by exists (k', v').
Qed.

(** [canonical] leaves a key as it is or gives the name of a field. *)
Lemma canonical_cases alias_dict k :
  canonical alias_dict k = k ∨ canonical alias_dict k ∈ map fst alias_dict.
Proof.
  unfold canonical. destruct (find _ _) as [entry|] eqn:Hfind; [right|by left].
  apply find_some in Hfind as [Hin _]. apply list_elem_of_In. by apply in_map.
Qed.

Lemma canonical_into alias_dict k k' :
  k ∉ map fst alias_dict → canonical alias_dict k' = k → k' = k.
Proof.
  intros Hk Heq. destruct (canonical_cases alias_dict k') as [Hsame|Hfield]; [congruence|].
  rewrite Heq in Hfield. done.
Qed.

Lemma keys_comprehension_values (g : pyval → pyval) d :
  Dict.wf d → Dict.keys (Dict.comprehension (fun k v => (k, g v)) d) = Dict.keys d.
Proof. intros Hwf. rewrite comprehension_values by done. apply keys_map_values. Qed.

(** [use_alias] on a key that stands alone for its field. *)
Lemma get_use_alias alias_dict k d :
  Dict.wf d → unrivalled alias_dict d k →
  Dict.get (canonical alias_dict k) (use_alias alias_dict d) = Dict.get k d.
Proof.
  intros Hwf Hk. apply (get_comprehension_renaming (canonical alias_dict)); [done|].
  intros k' Hin. apply Hk. by apply list_elem_of_In.
Qed.

(** A key that is neither the name of a field nor the provider's key of one
    is left alone. *)
Lemma unrivalled_plain alias_dict k d :
  k ∉ map fst alias_dict → canonical alias_dict k = k → unrivalled alias_dict d k.
Proof.
  intros Hfield Hsame k' _ Heq. rewrite Hsame in Heq. by apply (canonical_into alias_dict).
Qed.

Lemma get_use_alias_plain alias_dict k d :
  Dict.wf d → k ∉ map fst alias_dict → canonical alias_dict k = k →
  Dict.get k (use_alias alias_dict d) = Dict.get k d.
Proof.
  intros Hwf Hfield Hsame. rewrite <- Hsame at 1.
  apply get_use_alias; [done|]. by apply unrivalled_plain.
Qed.

Lemma wf_use_alias alias_dict d : Dict.wf (use_alias alias_dict d).
Proof. apply wf_comprehension. Qed.


(** What a field validator stores is what it returned, or what was there. *)
Lemma validate_before_get name alias f values values' k v :
  validate_before name alias f values = OK values' →
  Dict.get k values = Some v →
  Dict.get k values' = Some v ∨ ∃ v', f v = OK v' ∧ Dict.get k values' = Some v'.
Proof.
  unfold validate_before. intros Hrun Hk.
  set (key := match alias with
              | Some a => match Dict.get a values with Some _ => a | None => name end
              | None => name
              end) in *.
  destruct (Dict.get key values) as [v0|] eqn:Hv; [|injection Hrun as <-; by left].
  destruct (reported (f v0)) as [v'|e] eqn:Hf; [|done].
  injection Hrun as <-.
  destruct (decide (k = key)) as [->|Hne].
  - right. rewrite Hk in Hv. injection Hv as <-. exists v'.
    split; [by apply reported_ok_inv|apply get_setitem_eq].
  - left. by rewrite get_setitem_ne.
Qed.

Section BenzingaData.
Context `{Externals}.
Import BenzingaPriceTargetData.

Lemma get_replace_empty_strings item k :
  Dict.wf item →
  Dict.get k (replace_empty_strings item) = none_if_empty <$> Dict.get k item.
Proof.
  intros Hwf. unfold replace_empty_strings.
  rewrite comprehension_values by done. apply (get_map_values none_if_empty).
Qed.

(** The mapping after the model validators: the value of a key that stands
    alone for its field is found under the name of the field, [None] where
    it was the empty string. *)
Lemma get_normalize item k :
  Dict.wf item → unrivalled __alias_dict__ item k →
  Dict.get (canonical __alias_dict__ k) (normalize item)
  = none_if_empty <$> Dict.get k item.
Proof.
  intros Hwf Hk. unfold normalize. rewrite get_use_alias.
  - by apply get_replace_empty_strings.
  - apply wf_comprehension.
  - intros k' Hin. apply Hk. unfold replace_empty_strings in Hin.
    by rewrite keys_comprehension_values in Hin.
Qed.

Lemma get_normalize_plain item k :
  Dict.wf item → k ∉ map fst __alias_dict__ → canonical __alias_dict__ k = k →
  Dict.get k (normalize item) = none_if_empty <$> Dict.get k item.
Proof.
  intros Hwf Hfield Hsame. rewrite <- Hsame at 1.
  apply get_normalize; [done|]. by apply unrivalled_plain.
Qed.

(** A record that validates: its parts. *)
Lemma model_validate_ok_inv item record :
  model_validate item = OK record →
  ∃ prepared typed last_updated,
    prepare item = OK prepared
    ∧ typed_data "BenzingaPriceTargetData" prepared = OK typed
    ∧ last_updated_field (normalize item) = OK last_updated
    ∧ record = Dict.setitem "last_updated" last_updated typed.
Proof.
  unfold model_validate. intros Hrecord.
  apply then_field_ok_inv in Hrecord as (prepared & Hprepared & Hrecord).
  apply then_field_ok_inv in Hrecord as (typed & Htyped & Hrecord).
  apply then_field_ok_inv in Hrecord as (last_updated & Hlast & Hrecord).
  injection Hrecord as <-. by exists prepared, typed, last_updated.
Qed.

(** Seconds into the day make midnight only when there are none. *)
Lemma time_of_seconds_midnight s :
  0 ≤ s < 86400 →
  time_eqb (mkTime (s / 3600) (s / 60 mod 60) (s mod 60) 0) time_min = (s =? 0).
Proof.
  intros Hs. unfold time_eqb, time_min. simpl.
  destruct (Z.eqb_spec s 0) as [->|Hne]; [done|].
  rewrite andb_true_r.
  destruct (Z.eqb_spec (s / 3600) 0) as [Hh|]; [|done].
  destruct (Z.eqb_spec (s / 60 mod 60) 0) as [Hm|]; [|done].
  destruct (Z.eqb_spec (s mod 60) 0) as [Hsec|]; [|done].
  exfalso. apply Hne.
  pose proof (Z.div_mod s 60 ltac:(lia)) as Hs60.
  pose proof (Z.div_mod (s / 60) 60 ltac:(lia)) as Hm60.
  assert (s / 60 / 60 = 0) as Hq.
  { rewrite Z.div_div by lia. exact Hh. }
  lia.
Qed.

Lemma validate_date_nonzero t dt :
  t ≠ 0 → fromtimestamp t = OK dt →
  validate_date (VInt t)
  = OK (if t mod 86400 =? 0 then VDate (dt_date dt) else VDatetime dt).
Proof.
  intros Hne Hdt. unfold validate_date. simpl.
  destruct (Z.eqb_spec t 0); [done|]. simpl. rewrite Hdt. simpl.
  unfold fromtimestamp in Hdt.
  destruct (_ && _); [|done]. injection Hdt as <-. simpl.
  rewrite time_of_seconds_midnight; [done|].
  apply Z.mod_pos_bound. lia.
Qed.

(** The field [last_updated] of a record whose [updated] is a timestamp. *)
Lemma last_updated_field_of_timestamp item t dt :
  Dict.wf item → Dict.get "updated" item = Some (VInt t) →
  t ≠ 0 → fromtimestamp t = OK dt →
  last_updated_field (normalize item)
  = if t mod 86400 =? 0 then
      match lax [TDatetime] (VDate (dt_date dt)) with
      | Some v => OK v
      | None => Raise ValidationError
      end
    else OK (VDatetime dt).
Proof.
  intros Hwf Hitem Hne Hdt. unfold last_updated_field, field, argument.
  rewrite get_normalize_plain; [|done| |done].
  2:{ apply (bool_decide_unpack _). by vm_compute. }
  rewrite Hitem. cbn [fmap option_fmap option_map none_if_empty].
  rewrite (validate_date_nonzero t dt Hne Hdt).
  destruct (t mod 86400 =? 0); cbn [reported mbind result_bind]; unfold validate; simpl.
  - by destruct (lax [TDatetime] (VDate (dt_date dt))).
  - done.
Qed.

End BenzingaData.

(** C6 (where the code departs from the claim).  For a timestamp other than
    0 that [fromtimestamp] can represent, [validate_date] returns the bare
    date when the timestamp falls on midnight UTC and the full datetime when
    it does not.  But the field is annotated [Optional[datetime]]: with
    pydantic's coercion of dates the record holds, for a midnight timestamp,
    the datetime of that midnight, whose time is zero.  For every other
    timestamp it holds the full datetime, whose time is not zero. *)
Theorem midnight_timestamp_is_held_as_a_datetime `{Externals} item t dt record :
  coerces_dates →
  Dict.wf item → Dict.get "updated" item = Some (VInt t) →
  t ≠ 0 → fromtimestamp t = OK dt →
  BenzingaPriceTargetData.model_validate item = OK record →
  BenzingaPriceTargetData.validate_date (VInt t)
  = OK (if t mod 86400 =? 0 then VDate (dt_date dt) else VDatetime dt)
  ∧ (t mod 86400 = 0 →
     Dict.get "last_updated" record
     = Some (VDatetime (mkDatetime (dt_date dt) time_min false)))
  ∧ (t mod 86400 ≠ 0 →
     Dict.get "last_updated" record = Some (VDatetime dt)
     ∧ time_eqb (dt_time dt) time_min = false).
Proof.
  intros Hlax Hwf Hitem Hne Hdt Hrecord.
  apply model_validate_ok_inv in Hrecord
    as (prepared & typed & last_updated & _ & _ & Hlast & ->).
  rewrite get_setitem_eq.
  rewrite (last_updated_field_of_timestamp item t dt Hwf Hitem Hne Hdt) in Hlast.
  split_and!.
  - by apply validate_date_nonzero.
  - intros Hmid. apply Z.eqb_eq in Hmid. rewrite Hmid, Hlax in Hlast. congruence.
  - intros Hmid. pose proof Hmid as Hmid'. apply Z.eqb_neq in Hmid'.
    rewrite Hmid' in Hlast. split; [congruence|].
    unfold fromtimestamp in Hdt.
    destruct (_ && _); [|done]. injection Hdt as <-. simpl.
    rewrite time_of_seconds_midnight by (apply Z.mod_pos_bound; lia).
    by apply Z.eqb_neq.
Qed.

Lemma midnight_timestamp_is_held_as_a_datetime_witness :
  let item := [("ticker", VStr "AAPL"); ("updated", VInt 1704067200)] in
  let record := [("symbol", VStr "AAPL"); ("updated", VInt 1704067200);
                 ("last_updated", VDatetime (mkDatetime (mkDate 2024 1 1) time_min false))] in
  @BenzingaPriceTargetData.model_validate lenient_python item = OK record
  ∧ BenzingaPriceTargetData.validate_date (VInt 1704067200) = OK (VDate (mkDate 2024 1 1))
  ∧ Dict.get "last_updated" record
    = Some (VDatetime (mkDatetime (mkDate 2024 1 1) time_min false)).
Proof.
  intros item record.
  assert (@BenzingaPriceTargetData.model_validate lenient_python item = OK record)
    as Hrecord by reflexivity.
  destruct (@midnight_timestamp_is_held_as_a_datetime lenient_python item 1704067200
              (mkDatetime (mkDate 2024 1 1) time_min true) record)
    as (Hvalidator & Hmidnight & _).
  - intros d. reflexivity.
  - dict_wf.
  - reflexivity.
  - lia.
  - reflexivity.
  - exact Hrecord.
  - split_and!; [exact Hrecord|exact Hvalidator|]. apply Hmidnight. reflexivity.
Defined.

(** At the epoch itself the validator does not even return a date: 0 is
    midnight, and being falsy it is returned as it came. *)
Example validate_date_epoch :
  BenzingaPriceTargetData.validate_date (VInt 0) = OK (VInt 0).
Proof. reflexivity. Qed.

(** Beyond the years of [datetime] the validator raises a [ValueError],
    which pydantic reports as a validation failure of the field. *)
Example validate_date_year_10000 :
  BenzingaPriceTargetData.validate_date (VInt 253402300800) = Raise ValueError
  ∧ @BenzingaPriceTargetData.last_updated_field strict_python
      [("updated", VInt 253402300800)] = Raise ValidationError.
Proof. split; reflexivity. Qed.

Example fromtimestamp_out_of_range :
  fromtimestamp 67768036191676799 = Raise ValueError
  ∧ fromtimestamp 67768036191676800 = Raise OSError
  ∧ fromtimestamp (2 ^ 63) = Raise OverflowError
  ∧ fromtimestamp (-62135596801) = Raise ValueError.
Proof. repeat split; reflexivity. Qed.

(** C4 (as the code has it).  In the Benzinga data model a field whose raw
    value is the empty string is [None] after [replace_empty_strings], and
    [None] under the name of its field in the mapping that the typed
    validation works on (for every key but ["url_calendar"], which
    [transform_data] drops, and provided no other key of the record stands
    for the same field); an empty [updated] makes the [last_updated] of the
    record [None].  The FMP data model has no such step: there the empty
    string never becomes [None], and outside [published_date] it reaches the
    typed validation as the empty string. *)
Theorem benzinga_empty_string_is_none `{Externals} item k :
  Dict.wf item → Dict.get k item = Some (VStr EmptyString) →
  Dict.get k (BenzingaPriceTargetData.replace_empty_strings item) = Some VNone
  ∧ (k ≠ "url_calendar" →
     unrivalled BenzingaPriceTargetData.__alias_dict__ item k →
     ∀ prepared,
       BenzingaPriceTargetData.prepare (Dict.pop "url_calendar" item) = OK prepared →
       Dict.get (canonical BenzingaPriceTargetData.__alias_dict__ k) prepared
       = Some VNone)
  ∧ (k = "updated" →
     ∀ record,
       BenzingaPriceTargetData.model_validate (Dict.pop "url_calendar" item) = OK record →
       Dict.get "last_updated" record = Some VNone)
  ∧ (unrivalled FMPPriceTargetData.__alias_dict__ item k →
     ∀ prepared,
       FMPPriceTargetData.prepare item = OK prepared →
       let name := canonical FMPPriceTargetData.__alias_dict__ k in
       Dict.get name prepared ≠ Some VNone
       ∧ (name ≠ "published_date" → name ≠ alias_generator "published_date" →
          Dict.get name prepared = Some (VStr EmptyString))).
Proof.
  intros Hwf Hk.
  pose proof (wf_pop "url_calendar" item Hwf) as Hwf'.
  split_and!.
  - rewrite get_replace_empty_strings by done. by rewrite Hk.
  - intros Hne Hsole prepared Hprepared.
    eapply validate_before_keeps_none; [|exact Hprepared|]; [done|].
    rewrite get_normalize; [by rewrite get_pop_ne, Hk|done|].
    intros k' Hin. apply Hsole. apply list_elem_of_In.
    by apply (keys_pop_subseteq "url_calendar"), list_elem_of_In.
  - intros -> record Hrecord.
    apply model_validate_ok_inv in Hrecord
      as (prepared & typed & last_updated & _ & _ & Hlast & ->).
    rewrite get_setitem_eq. f_equal.
    unfold BenzingaPriceTargetData.last_updated_field, field, argument in Hlast.
    rewrite get_normalize_plain in Hlast; [|done| |done].
    2:{ apply (bool_decide_unpack _). by vm_compute. }
    rewrite get_pop_ne, Hk in Hlast by done.
    cbv in Hlast. congruence.
  - intros Hsole prepared Hprepared name. subst name.
    pose proof (get_use_alias _ k item Hwf Hsole) as Hget. rewrite Hk in Hget.
    split.
    + destruct (validate_before_get _ _ _ _ _ _ _ Hprepared Hget)
        as [Hsame|(v' & Hv' & Hnew)]; [congruence|].
      rewrite Hnew. unfold FMPPriceTargetData.validate_date in Hv'.
      destruct (strptime _ _); [|done]. injection Hv' as <-. done.
    + intros Hname Halias.
      rewrite (validate_before_other _ _ _ _ _ _ Hprepared); [done|done|congruence].
Qed.

(** A key of a record given in full stands alone for its field. *)
Ltac unrivalled_by_cases :=
  let k' := fresh "k" in
  let Hin := fresh "Hin" in
  let Heq := fresh "Heq" in
  intros k' Hin Heq; simpl in Hin;
  repeat (destruct Hin as [<-|Hin]; [vm_compute in Heq; congruence|]);
  destruct Hin.

Lemma benzinga_empty_string_is_none_witness :
  let item := [("ticker", VStr "AAPL"); ("url_calendar", VStr "https://www.benzinga.com");
               ("pt_prior", VStr EmptyString); ("updated", VStr EmptyString)] in
  let prepared := [("symbol", VStr "AAPL"); ("price_target_previous", VNone);
                   ("updated", VNone)] in
  let fmp_item := [("symbol", VStr "AAPL"); ("newsTitle", VStr EmptyString)] in
  let fmp_prepared := [("symbol", VStr "AAPL"); ("news_title", VStr EmptyString)] in
  @BenzingaPriceTargetData.prepare strict_python (Dict.pop "url_calendar" item) = OK prepared
  ∧ Dict.get "pt_prior" (BenzingaPriceTargetData.replace_empty_strings item) = Some VNone
  ∧ Dict.get "price_target_previous" prepared = Some VNone
  ∧ (∀ record,
       @BenzingaPriceTargetData.model_validate strict_python (Dict.pop "url_calendar" item)
       = OK record →
       Dict.get "last_updated" record = Some VNone)
  ∧ @FMPPriceTargetData.prepare strict_python fmp_item = OK fmp_prepared
  ∧ Dict.get "news_title" fmp_prepared = Some (VStr EmptyString).
Proof.
  intros item prepared fmp_item fmp_prepared.
  assert (Dict.wf item) as Hwf by dict_wf.
  assert (Dict.wf fmp_item) as Hwf_fmp by dict_wf.
  destruct (@benzinga_empty_string_is_none strict_python item "pt_prior" Hwf eq_refl)
    as (Hmodel & Hprepared & _ & _).
  destruct (@benzinga_empty_string_is_none strict_python item "updated" Hwf eq_refl)
    as (_ & _ & Hrecord & _).
  destruct (@benzinga_empty_string_is_none strict_python fmp_item "newsTitle" Hwf_fmp eq_refl)
    as (_ & _ & _ & Hfmp).
  split_and!.
  - reflexivity.
  - exact Hmodel.
  - apply (Hprepared ltac:(discriminate)); [unrivalled_by_cases|reflexivity].
  - by apply Hrecord.
  - reflexivity.
  - apply (Hfmp ltac:(unrivalled_by_cases) fmp_prepared eq_refl); discriminate.
Defined.

(** The claim fails for FMP: the empty string of a raw record reaches the
    typed validation as it is, under the name of its field. *)
Lemma fmp_keeps_the_empty_string :
  ¬ (∀ (E : Externals) item k prepared,
       Dict.wf item → Dict.get k item = Some (VStr EmptyString) →
       FMPPriceTargetData.prepare (FMPPriceTargetFetcher.new_item item) = OK prepared →
       Dict.get (canonical FMPPriceTargetData.__alias_dict__ k) prepared = Some VNone).
Proof.
  intros Hall.
  specialize (Hall strict_python [("symbol", VStr "AAPL"); ("newsTitle", VStr EmptyString)]
                "newsTitle" [("symbol", VStr "AAPL"); ("news_title", VStr EmptyString)]).
  discriminate Hall; [dict_wf|reflexivity|reflexivity].
Qed.

Example fmp_transform_data_empty_string q :
  @FMPPriceTargetFetcher.transform_data strict_python q
    [[("symbol", VStr "AAPL"); ("newsTitle", VStr EmptyString)]]
  = OK [[("symbol", VStr "AAPL"); ("news_title", VStr EmptyString)]].
Proof. reflexivity. Qed.

(** ** The extraction steps *)

Section Extraction.
Context `{Network}.

(** [aextract_data] of Benzinga, run: one request, and the answer decides. *)
Lemma benzinga_aextract_data_run credentials w :
  BenzingaPriceTargetFetcher.aextract_data credentials w
  = (match upstream (BenzingaPriceTargetFetcher.request_url credentials (query w)) with
     | OK [] => Raise EmptyDataError
     | OK (VDict d :: _) => OK (default VNone (Dict.get "ratings" d))
     | OK (_ :: _) => Raise AttributeError
     | Raise e => Raise e
     end,
     mkWorld (query w)
       (issued w ++ [BenzingaPriceTargetFetcher.request_url credentials (query w)])).
Proof.
  unfold BenzingaPriceTargetFetcher.aextract_data, and_then, read, request. simpl.
  destruct (upstream _) as [[|[] data]|e]; reflexivity.
Qed.

Lemma split_nonempty sep s : split sep s ≠ [].
Proof.
  destruct s as [|c s]; simpl; [done|].
  destruct (Ascii.eqb c sep); [done|]. by destruct (split sep s).
Qed.

Lemma split_length sep s : length (split sep s) = S (count_char sep s).
Proof.
  induction s as [|c s IH]; simpl; [done|].
  destruct (Ascii.eqb c sep); simpl; [by rewrite IH|].
  pose proof (split_nonempty sep s). destruct (split sep s); [done|].
  simpl in *. done.
Qed.

Lemma set_symbol_twice s s' q :
  FMPPriceTargetQueryParams.set_symbol s (FMPPriceTargetQueryParams.set_symbol s' q)
  = FMPPriceTargetQueryParams.set_symbol s q.
Proof. reflexivity. Qed.

(** The loop of FMP's [aextract_data]: one URL per symbol, each made from
    the query with that symbol assigned; the query is left with the last
    symbol. *)
Lemma build_urls_run endpoint api_key symbols urls w :
  FMPPriceTargetFetcher.build_urls endpoint api_key symbols urls w
  = (OK (urls ++ map (fun symbol =>
                        create_url 4 endpoint api_key
                          (FMPPriceTargetQueryParams.set_symbol (VStr symbol) (query w))
                          ["limit"]) symbols)%list,
     mkWorld (match last symbols with
              | Some symbol => FMPPriceTargetQueryParams.set_symbol (VStr symbol) (query w)
              | None => query w
              end) (issued w)).
Proof.
  revert urls w. induction symbols as [|symbol symbols IH]; intros urls w; simpl.
  - rewrite app_nil_r. by destruct w.
  - unfold and_then at 1. unfold FMPPriceTargetFetcher.add_url, and_then, assign, read, pure.
    simpl. rewrite IH. simpl. rewrite <- app_assoc. simpl. f_equal.
    rewrite last_cons. by destruct (last symbols).
Qed.

(** The batch helper requests every URL, in order, and changes nothing
    else; when every request succeeds it returns the answers joined. *)
Lemma get_data_urls_run {Q} urls (w : world Q) :
  (FMPPriceTargetFetcher.get_data_urls urls w).2
  = mkWorld (query w) (issued w ++ urls).
Proof.
  revert w. induction urls as [|url urls IH]; intros w; simpl.
  - rewrite app_nil_r. by destruct w.
  - specialize (IH (mkWorld (query w) (issued w ++ [url]))).
    destruct (FMPPriceTargetFetcher.get_data_urls urls _) as [others w2].
    simpl in *. rewrite IH. by rewrite <- app_assoc.
Qed.

Lemma get_data_urls_answers {Q} urls answers (w : world Q) :
  Forall2 (fun url records => upstream url = OK records) urls answers →
  (FMPPriceTargetFetcher.get_data_urls urls w).1 = OK (concat answers).
Proof.
  intros Hall. revert w. induction Hall as [|url records urls answers Hurl _ IH]; intros w.
  - reflexivity.
  - simpl. specialize (IH (mkWorld (query w) (issued w ++ [url]))).
    destruct (FMPPriceTargetFetcher.get_data_urls urls _) as [others w2].
    simpl in *. by rewrite Hurl, IH.
Qed.

(** [aextract_data] of FMP, run on a query whose symbol is a string. *)
Lemma fmp_aextract_data_run credentials w s :
  FMPPriceTargetQueryParams.symbol (query w) = VStr s →
  FMPPriceTargetFetcher.aextract_data credentials w
  = FMPPriceTargetFetcher.get_data_urls
      (map (fun symbol =>
              create_url 4 (FMPPriceTargetFetcher.endpoint_of (query w))
                (credential credentials "fmp_api_key")
                (FMPPriceTargetQueryParams.set_symbol (VStr symbol) (query w))
                ["limit"]) (split comma s))
      (mkWorld (match last (split comma s) with
                | Some symbol => FMPPriceTargetQueryParams.set_symbol (VStr symbol) (query w)
                | None => query w
                end) (issued w)).
Proof.
  intros Hs. unfold FMPPriceTargetFetcher.aextract_data.
  unfold and_then at 1. unfold read at 1. rewrite Hs.
  unfold and_then. by rewrite build_urls_run.
Qed.

End Extraction.

(** C1 (as the code has it).  The extraction raises [EmptyDataError] when the
    request helper comes back with no element at all; when the first element
    carries an empty ["ratings"] list, that empty list is what it returns. *)
Theorem empty_response_raises_empty_data `{Network} credentials w :
  (upstream (BenzingaPriceTargetFetcher.request_url credentials (query w)) = OK [] →
   (BenzingaPriceTargetFetcher.aextract_data credentials w).1 = Raise EmptyDataError)
  ∧ (∀ d rest,
       upstream (BenzingaPriceTargetFetcher.request_url credentials (query w))
       = OK (VDict d :: rest) →
       Dict.get "ratings" d = Some (VList []) →
       (BenzingaPriceTargetFetcher.aextract_data credentials w).1 = OK (VList [])).
Proof.
  rewrite benzinga_aextract_data_run. simpl. split.
  - by intros ->.
  - by intros d rest -> ->.
Qed.

Lemma empty_response_raises_empty_data_witness :
  (@BenzingaPriceTargetFetcher.aextract_data (canned_network (fun _ => OK [])) None
     (mkWorld sample_benzinga_query [])).1 = Raise EmptyDataError
  ∧ (@BenzingaPriceTargetFetcher.aextract_data
       (canned_network (fun _ => OK [VDict [("ratings", VList [])]])) None
       (mkWorld sample_benzinga_query [])).1 = OK (VList []).
Proof.
  split.
  - apply (proj1 (@empty_response_raises_empty_data (canned_network (fun _ => OK []))
                    None (mkWorld sample_benzinga_query []))).
    reflexivity.
  - apply (proj2 (@empty_response_raises_empty_data
                    (canned_network (fun _ => OK [VDict [("ratings", VList [])]])) None
                    (mkWorld sample_benzinga_query []))
             [("ratings", VList [])] []);
      reflexivity.
Defined.

(** The claim fails on a payload whose ["ratings"] list is empty: the
    extraction returns the empty list. *)
Lemma zero_ratings_may_return_the_empty_list :
  ¬ (∀ (N : Network) credentials w data,
       upstream (BenzingaPriceTargetFetcher.request_url credentials (query w)) = OK data →
       zero_ratings data →
       (BenzingaPriceTargetFetcher.aextract_data credentials w).1 = Raise EmptyDataError).
Proof.
  intros Hall.
  specialize (Hall (canned_network (fun _ => OK [VDict [("ratings", VList [])]])) None
                (mkWorld sample_benzinga_query []) [VDict [("ratings", VList [])]] eq_refl).
  discriminate Hall. right. by exists [("ratings", VList [])], [].
Qed.

(** C10. When the answer is not empty and its first element is a dictionary
    without a ["ratings"] key, the extraction returns [None]: it does not
    raise [EmptyDataError], and what it returns is no list. *)
Theorem missing_ratings_key_returns_none `{Network} credentials w d rest :
  upstream (BenzingaPriceTargetFetcher.request_url credentials (query w))
  = OK (VDict d :: rest) →
  Dict.get "ratings" d = None →
  (BenzingaPriceTargetFetcher.aextract_data credentials w).1 = OK VNone
  ∧ (BenzingaPriceTargetFetcher.aextract_data credentials w).1 ≠ Raise EmptyDataError
  ∧ ∀ records, (BenzingaPriceTargetFetcher.aextract_data credentials w).1 ≠ OK (VList records).
Proof.
  intros Hdata Hkey. rewrite benzinga_aextract_data_run. simpl.
  rewrite Hdata, Hkey. simpl. by split_and!.
Qed.

Lemma missing_ratings_key_returns_none_witness :
  (@BenzingaPriceTargetFetcher.aextract_data
     (canned_network (fun _ => OK [VDict [("error", VStr "invalid token")]])) None
     (mkWorld sample_benzinga_query [])).1 = OK VNone.
Proof.
  apply (@missing_ratings_key_returns_none
           (canned_network (fun _ => OK [VDict [("error", VStr "invalid token")]])) None
           (mkWorld sample_benzinga_query []) [("error", VStr "invalid token")] []);
    reflexivity.
Defined.

Lemma split_without_separator sep s : count_char sep s = 0%nat → split sep s = [s].
Proof.
  induction s as [|c s IH]; simpl; [done|].
  destruct (Ascii.eqb c sep); [done|]. intros Hs. by rewrite IH.
Qed.

(** C2 (as the code has it).  The extraction of Benzinga leaves the query as
    it was.  The extraction of FMP leaves [limit] and [with_grade] as they
    were and assigns to [symbol] each comma-separated piece in turn, so that
    the query ends up holding the last piece; it is the query it was only
    when the symbol has no comma (or is no string, in which case the
    extraction raises at once). *)
Theorem query_after_extraction `{Network} :
  (∀ credentials w,
     query (BenzingaPriceTargetFetcher.aextract_data credentials w).2 = query w)
  ∧ (∀ credentials w,
       let after := query (FMPPriceTargetFetcher.aextract_data credentials w).2 in
       FMPPriceTargetQueryParams.limit after = FMPPriceTargetQueryParams.limit (query w)
       ∧ FMPPriceTargetQueryParams.with_grade after
         = FMPPriceTargetQueryParams.with_grade (query w)
       ∧ (∀ s, FMPPriceTargetQueryParams.symbol (query w) = VStr s →
               ∃ piece, last (split comma s) = Some piece
                        ∧ FMPPriceTargetQueryParams.symbol after = VStr piece)
       ∧ (∀ s, FMPPriceTargetQueryParams.symbol (query w) = VStr s →
               count_char comma s = 0%nat → after = query w)
       ∧ ((∀ s, FMPPriceTargetQueryParams.symbol (query w) ≠ VStr s) → after = query w)).
Proof.
  split.
  - intros credentials w. by rewrite benzinga_aextract_data_run.
  - intros credentials w after.
    destruct (FMPPriceTargetQueryParams.symbol (query w)) as [| | |s| | | |] eqn:Hs.
    4:{ assert (after = match last (split comma s) with
                        | Some symbol =>
                            FMPPriceTargetQueryParams.set_symbol (VStr symbol) (query w)
                        | None => query w
                        end) as Hafter.
        { subst after. rewrite (fmp_aextract_data_run credentials w s Hs).
          by rewrite get_data_urls_run. }
        pose proof (split_nonempty comma s) as Hsplit.
        destruct (last (split comma s)) as [piece|] eqn:Hlast.
        2:{ apply last_None in Hlast. done. }
        rewrite Hafter. split_and!; try done.
        - intros s' [= <-]. by exists piece.
        - intros s' [= <-] Hcount. rewrite split_without_separator in Hlast by done.
          injection Hlast as <-. destruct (query w); simpl in *. by subst.
        - intros Hno. by destruct (Hno s). }
    all: assert (after = query w) as -> by
        (subst after; unfold FMPPriceTargetFetcher.aextract_data, and_then, read, raise;
         by rewrite Hs).
    all: split_and!; try done.
Qed.

Lemma query_after_extraction_witness :
  let N := canned_network sample_fmp_upstream in
  query (@BenzingaPriceTargetFetcher.aextract_data N None
           (mkWorld sample_benzinga_query [])).2 = sample_benzinga_query
  ∧ FMPPriceTargetQueryParams.symbol
      (query (@FMPPriceTargetFetcher.aextract_data N None (mkWorld sample_fmp_query [])).2)
    = VStr "MSFT".
Proof.
  intros N. destruct (@query_after_extraction N) as [Hbenzinga Hfmp]. split.
  - apply Hbenzinga.
  - destruct (Hfmp None (mkWorld sample_fmp_query [])) as (_ & _ & Hsymbol & _).
    destruct (Hsymbol "AAPL,MSFT" eq_refl) as (piece & Hlast & Hafter).
    vm_compute in Hlast. injection Hlast as <-. exact Hafter.
Defined.

(** The claim fails for FMP: after the extraction for two symbols the
    query's [symbol] is the second one. *)
Lemma fmp_extraction_overwrites_symbol :
  ¬ (∀ (N : Network) credentials w,
       query (FMPPriceTargetFetcher.aextract_data credentials w).2 = query w).
Proof.
  intros Hall.
  specialize (Hall (canned_network sample_fmp_upstream) None (mkWorld sample_fmp_query [])).
  vm_compute in Hall. discriminate.
Qed.

(** C7.  For a query whose symbol has n comma-separated pieces, the
    extraction issues n requests, one per piece and in their order, each for
    the URL of the query with that piece as its symbol; and when every
    request is answered, it returns the answers concatenated in that order. *)
Theorem one_request_per_symbol `{Network} credentials w s :
  FMPPriceTargetQueryParams.symbol (query w) = VStr s →
  let symbols := split comma s in
  let urls :=
    map (fun symbol =>
           create_url 4 (FMPPriceTargetFetcher.endpoint_of (query w))
             (credential credentials "fmp_api_key")
             (FMPPriceTargetQueryParams.set_symbol (VStr symbol) (query w))
             ["limit"]) symbols in
  length symbols = S (count_char comma s)
  ∧ length urls = length symbols
  ∧ issued (FMPPriceTargetFetcher.aextract_data credentials w).2 = (issued w ++ urls)%list
  ∧ ∀ answers,
      Forall2 (fun url records => upstream url = OK records) urls answers →
      (FMPPriceTargetFetcher.aextract_data credentials w).1 = OK (concat answers).
Proof.
  intros Hs symbols urls. split_and!.
  - apply split_length.
  - apply length_map.
  - rewrite (fmp_aextract_data_run credentials w s Hs). by rewrite get_data_urls_run.
  - intros answers Hanswers.
    rewrite (fmp_aextract_data_run credentials w s Hs).
    by apply get_data_urls_answers.
Qed.

Lemma one_request_per_symbol_witness :
  let N := canned_network sample_fmp_upstream in
  let run := @FMPPriceTargetFetcher.aextract_data N None (mkWorld sample_fmp_query []) in
  issued run.2 = ["price-target/AAPL"; "price-target/MSFT"]
  ∧ run.1 = OK [VDict [("symbol", VStr "AAPL"); ("priceTarget", VInt 250)];
                VDict [("symbol", VStr "MSFT"); ("priceTarget", VInt 500)];
                VDict [("symbol", VStr "MSFT"); ("priceTarget", VInt 510)]].
Proof.
  intros N run.
  destruct (@one_request_per_symbol N None (mkWorld sample_fmp_query []) "AAPL,MSFT" eq_refl)
    as (_ & _ & Hissued & Hanswers).
  split.
  - exact Hissued.
  - apply (Hanswers [[VDict [("symbol", VStr "AAPL"); ("priceTarget", VInt 250)]];
                     [VDict [("symbol", VStr "MSFT"); ("priceTarget", VInt 500)];
                      VDict [("symbol", VStr "MSFT"); ("priceTarget", VInt 510)]]]).
    repeat constructor.
Defined.

(** ** The transform steps *)

Section Transform.
Context `{Externals}.

(** The Benzinga loop appends, to what it was given, one record per item:
    the validation of the item without its ["url_calendar"]. *)
Lemma benzinga_transform_loop_ok data results out :
  BenzingaPriceTargetFetcher.transform_loop data results = OK out ↔
  ∃ records,
    out = (results ++ records)%list
    ∧ Forall2 (fun item record =>
                 BenzingaPriceTargetData.model_validate (Dict.pop "url_calendar" item)
                 = OK record) data records.
Proof.
  revert results. induction data as [|item data IH]; intros results; simpl.
  - split.
    + intros [= <-]. exists []. by rewrite app_nil_r.
    + intros (records & -> & ->%Forall2_nil_inv_l). by rewrite app_nil_r.
  - destruct (BenzingaPriceTargetData.model_validate _) as [record|e] eqn:Hitem; simpl.
    + rewrite IH. split.
      * intros (records & -> & Hall). exists (record :: records).
        rewrite <- app_assoc. split; [done|]. by constructor.
      * intros (records & -> & Hall).
        apply Forall2_cons_inv_l in Hall as (record' & records' & Hrecord & Hall & ->).
        exists records'. rewrite <- app_assoc. simpl. split; [congruence|done].
    + split; [done|]. intros (records & _ & Hall).
      apply Forall2_cons_inv_l in Hall as (record' & records' & Hrecord & _). congruence.
Qed.

(** The FMP loop likewise, each item with [analystCompany] renamed. *)
Lemma fmp_transform_loop_ok data results out :
  FMPPriceTargetFetcher.transform_loop data results = OK out ↔
  ∃ records,
    out = (results ++ records)%list
    ∧ Forall2 (fun item record =>
                 FMPPriceTargetData.model_validate (FMPPriceTargetFetcher.new_item item)
                 = OK record) data records.
Proof.
  revert results. induction data as [|item data IH]; intros results; simpl.
  - split.
    + intros [= <-]. exists []. by rewrite app_nil_r.
    + intros (records & -> & ->%Forall2_nil_inv_l). by rewrite app_nil_r.
  - destruct (FMPPriceTargetData.model_validate _) as [record|e] eqn:Hitem; simpl.
    + rewrite IH. split.
      * intros (records & -> & Hall). exists (record :: records).
        rewrite <- app_assoc. split; [done|]. by constructor.
      * intros (records & -> & Hall).
        apply Forall2_cons_inv_l in Hall as (record' & records' & Hrecord & Hall & ->).
        exists records'. rewrite <- app_assoc. simpl. split; [congruence|done].
    + split; [done|]. intros (records & _ & Hall).
      apply Forall2_cons_inv_l in Hall as (record' & records' & Hrecord & _). congruence.
Qed.

(** Items that all validate have their records. *)
Lemma Forall_validates {A B} (f : A → result B) (l : list A) :
  Forall (fun a => ∃ b, f a = OK b) l → ∃ bs, Forall2 (fun a b => f a = OK b) l bs.
Proof.
  induction 1 as [|a l [b Hb] _ [bs Hbs]]; [by exists []|].
  exists (b :: bs). by constructor.
Qed.

End Transform.

(** C9.  When every raw record validates, [transform_data], of Benzinga and
    of FMP alike, returns a list as long as its input whose i-th record is
    the validation of the i-th raw record (without its ["url_calendar"] for
    Benzinga, with [analystCompany] renamed for FMP). *)
Theorem transform_data_is_positional `{Externals} :
  (∀ query data,
     Forall (fun item =>
               ∃ record, BenzingaPriceTargetData.model_validate
                           (Dict.pop "url_calendar" item) = OK record) data →
     ∃ results,
       BenzingaPriceTargetFetcher.transform_data query data = OK results
       ∧ length results = length data
       ∧ ∀ (i : nat) item,
           data !! i = Some item →
           ∃ record, results !! i = Some record
                     ∧ BenzingaPriceTargetData.model_validate
                         (Dict.pop "url_calendar" item) = OK record)
  ∧ (∀ query data,
       Forall (fun item =>
                 ∃ record, FMPPriceTargetData.model_validate
                             (FMPPriceTargetFetcher.new_item item) = OK record) data →
       ∃ results,
         FMPPriceTargetFetcher.transform_data query data = OK results
         ∧ length results = length data
         ∧ ∀ (i : nat) item,
             data !! i = Some item →
             ∃ record, results !! i = Some record
                       ∧ FMPPriceTargetData.model_validate
                           (FMPPriceTargetFetcher.new_item item) = OK record).
Proof.
  split; intros query data [results Hall]%Forall_validates; exists results.
  - split_and!.
    + apply benzinga_transform_loop_ok. by exists results.
    + symmetry. by eapply Forall2_length.
    + intros i item Hitem. by eapply Forall2_lookup_l in Hall.
  - split_and!.
    + apply fmp_transform_loop_ok. by exists results.
    + symmetry. by eapply Forall2_length.
    + intros i item Hitem. by eapply Forall2_lookup_l in Hall.
Qed.

Lemma transform_data_is_positional_witness :
  @BenzingaPriceTargetFetcher.transform_data lenient_python sample_benzinga_query
    [ [("ticker", VStr "AAPL"); ("url_calendar", VStr "https://www.benzinga.com/AAPL");
       ("analyst_name", VStr EmptyString)];
      [("ticker", VStr "MSFT"); ("updated", VInt 1704067200)] ]
  = OK [ [("symbol", VStr "AAPL"); ("analyst_name", VNone); ("last_updated", VNone)];
         [("symbol", VStr "MSFT"); ("updated", VInt 1704067200);
          ("last_updated", VDatetime (mkDatetime (mkDate 2024 1 1) time_min false))] ]
  ∧ @FMPPriceTargetFetcher.transform_data lenient_python sample_fmp_query
      [ [("symbol", VStr "AAPL"); ("analystCompany", VStr "Acme")];
        [("symbol", VStr "MSFT")] ]
    = OK [ [("symbol", VStr "AAPL"); ("analyst_firm", VStr "Acme")];
           [("symbol", VStr "MSFT")] ].
Proof.
  destruct (@transform_data_is_positional lenient_python) as [Hbenzinga Hfmp]. split.
  - destruct (Hbenzinga sample_benzinga_query
                [ [("ticker", VStr "AAPL");
                   ("url_calendar", VStr "https://www.benzinga.com/AAPL");
                   ("analyst_name", VStr EmptyString)];
                  [("ticker", VStr "MSFT"); ("updated", VInt 1704067200)] ])
      as (results & Hresults & _).
    + repeat constructor; eexists; reflexivity.
    + rewrite Hresults. vm_compute in Hresults. injection Hresults as <-. reflexivity.
  - destruct (Hfmp sample_fmp_query
                [ [("symbol", VStr "AAPL"); ("analystCompany", VStr "Acme")];
                  [("symbol", VStr "MSFT")] ])
      as (results & Hresults & _).
    + repeat constructor; eexists; reflexivity.
    + rewrite Hresults. vm_compute in Hresults. injection Hresults as <-. reflexivity.
Defined.

(** * Further properties of the two adapters *)

(** ** The calendar *)

Lemma forall_range_spec P lo n :
  forall_range P lo n = true → ∀ z, lo ≤ z < lo + Z.of_nat n → P z = true.
Proof.
  revert lo. induction n as [|n IH]; intros lo Hall z Hz; [lia|].
  simpl in Hall. apply andb_prop in Hall as [Hlo Hrest].
  destruct (decide (z = lo)) as [->|Hne]; [done|].
  apply (IH (lo + 1) Hrest). lia.
Qed.

Lemma month_day_round_trip m dd :
  1 ≤ m ≤ 12 → 1 ≤ dd ≤ days_in_month 0 m →
  month_day_ok m dd = true.
Proof.
  intros Hm Hdd.
  assert (dd ≤ 31) as Hdd31.
  { destruct Hdd as [_ Hdd]. unfold days_in_month in Hdd.
    repeat match type of Hdd with context [if ?b then _ else _] => destruct b end; lia. }
  assert (forall_range (fun m => forall_range (fun dd => month_day_ok m dd) 1 31) 1 12 = true)
    as Hall by (vm_compute; reflexivity).
  pose proof (forall_range_spec _ _ _ Hall m ltac:(lia)) as Hmonth.
  apply (forall_range_spec _ _ _ Hmonth dd). lia.
Qed.

(** Year 0 is a leap year: its months are as long as months get. *)
Lemma days_in_month_le y m : days_in_month y m ≤ days_in_month 0 m.
Proof.
  unfold days_in_month. destruct (m =? 2); [|lia].
  change (is_leap 0) with true. destruct (is_leap y); lia.
Qed.

Lemma year_of_era_round_trip yoe doy :
  0 ≤ yoe < 400 → 0 ≤ doy ≤ 365 →
  (doy = 365 → yoe mod 4 = 3 ∧ (yoe mod 100 ≠ 99 ∨ yoe = 399)) →
  let doe := yoe * 365 + yoe / 4 - yoe / 100 + doy in
  0 ≤ doe < 146097
  ∧ (doe - doe / 1460 + doe / 36524 - doe / 146096) / 365 = yoe.
Proof.
  intros Hyoe Hdoy Hleap doe. subst doe.
  Z.div_mod_to_equations; lia.
Qed.

Lemma day_of_era_round_trip yoe m dd :
  0 ≤ yoe < 400 → 1 ≤ m ≤ 12 →
  1 ≤ dd ≤ days_in_month (yoe + (if m <=? 2 then 1 else 0)) m →
  0 ≤ day_of_era yoe m dd < 146097
  ∧ civil_of_day_of_era (day_of_era yoe m dd) = (yoe, m, dd).
Proof.
  intros Hyoe Hm Hdd.
  pose proof (days_in_month_le (yoe + (if m <=? 2 then 1 else 0)) m) as Hle.
  pose proof (month_day_round_trip m dd Hm ltac:(lia)) as Hok.
  unfold month_day_ok in Hok.
  destruct (Z.leb_spec dd (days_in_month 0 m)); [|lia].
  cbv zeta in Hok.
  change ((153 * ((m + 9) mod 12) + 2) / 5 + dd - 1) with (day_of_march_year m dd) in *.
  set (doy := day_of_march_year m dd) in *.
  repeat (apply andb_prop in Hok as [Hok ?]).
  repeat match goal with
         | H : (_ =? _) = true |- _ => apply Z.eqb_eq in H
         | H : (_ <=? _) = true |- _ => apply Z.leb_le in H
         end.
  assert (doy = 365 → yoe mod 4 = 3 ∧ (yoe mod 100 ≠ 99 ∨ yoe = 399)) as Hleap.
  { intros Hlast.
    assert (m = 2 ∧ dd = 29) as [-> ->].
    { destruct (Z.eqb_spec doy 365); [|done].
      match goal with H : negb true || _ = true |- _ => simpl in H;
        apply andb_prop in H as [?%Z.eqb_eq ?%Z.eqb_eq] end. done. }
    change (2 <=? 2) with true in Hdd. cbv iota in Hdd.
    unfold days_in_month in Hdd. change (2 =? 2) with true in Hdd. cbv iota in Hdd.
    destruct (is_leap (yoe + 1)) eqn:Hl; [|lia].
    unfold is_leap in Hl. apply andb_prop in Hl as [H4%Z.eqb_eq Hl].
    apply orb_prop in Hl as [H100%negb_true_iff%Z.eqb_neq|H400%Z.eqb_eq];
      Z.div_mod_to_equations; lia. }
  assert (day_of_era yoe m dd = yoe * 365 + yoe / 4 - yoe / 100 + doy) as Hdoe
    by reflexivity.
  destruct (year_of_era_round_trip yoe doy Hyoe ltac:(lia) Hleap) as [Hrange Hyear].
  rewrite Hdoe. split; [done|].
  unfold civil_of_day_of_era. cbv zeta. rewrite Hyear.
  replace (yoe * 365 + yoe / 4 - yoe / 100 + doy - (365 * yoe + yoe / 4 - yoe / 100))
    with doy by ring.
  congruence.
Qed.

Lemma is_leap_era era k : is_leap (era * 400 + k) = is_leap k.
Proof.
  unfold is_leap.
  replace ((era * 400 + k) mod 4) with (k mod 4)
    by (replace (era * 400 + k) with (k + era * 100 * 4) by ring; by rewrite Z.mod_add).
  replace ((era * 400 + k) mod 100) with (k mod 100)
    by (replace (era * 400 + k) with (k + era * 4 * 100) by ring; by rewrite Z.mod_add).
  replace ((era * 400 + k) mod 400) with (k mod 400)
    by (replace (era * 400 + k) with (k + era * 400) by ring; by rewrite Z.mod_add).
  done.
Qed.

Lemma date_of_days_era era doe :
  0 ≤ doe < 146097 →
  date_of_days (era * 146097 + doe - 719468)
  = let c := civil_of_day_of_era doe in
    mkDate (if c.1.2 <=? 2 then c.1.1 + era * 400 + 1 else c.1.1 + era * 400) c.1.2 c.2.
Proof.
  intros Hdoe. unfold date_of_days.
  replace (era * 146097 + doe - 719468 + 719468) with (era * 146097 + doe) by ring.
  rewrite Z.div_add_l, (Z.div_small doe) by lia. rewrite Z.add_0_r.
  replace (era * 146097 + doe - era * 146097) with doe by ring.
  reflexivity.
Qed.

(** A date is found again from its day number. *)
Lemma date_of_days_of_date d : valid_date d → date_of_days (days_of_date d) = d.
Proof.
  destruct d as [y m dd]. unfold valid_date. cbn [year month day].
  intros (Hy & Hm & Hdd).
  set (c := if m <=? 2 then 1 else 0).
  set (y' := if m <=? 2 then y - 1 else y).
  set (era := y' / 400). set (yoe := y' - era * 400).
  assert (0 ≤ yoe < 400) as Hyoe.
  { subst yoe era. pose proof (Z.mod_pos_bound y' 400 ltac:(lia)).
    rewrite Z.mod_eq in * by lia. lia. }
  assert (y = era * 400 + (yoe + c)) as Hyear.
  { subst yoe c y'. destruct (m <=? 2); lia. }
  assert (days_in_month y m = days_in_month (yoe + c) m) as Hdim.
  { unfold days_in_month. by rewrite Hyear, is_leap_era. }
  rewrite Hdim in Hdd.
  destruct (day_of_era_round_trip yoe m dd Hyoe Hm Hdd) as [Hdoe Hcivil].
  assert (days_of_date (mkDate y m dd) = era * 146097 + day_of_era yoe m dd - 719468)
    as -> by reflexivity.
  rewrite date_of_days_era by done. rewrite Hcivil. cbn [fst snd].
  f_equal. subst c. destruct (m <=? 2); lia.
Qed.

(** A day number is found again from its date. *)
Lemma days_of_date_of_days z : days_of_date (date_of_days z) = z.
Proof.
  unfold days_of_date, date_of_days. cbn [year month day].
  repeat match goal with
         | |- context [if ?b then _ else _] =>
             let H := fresh in
             destruct b eqn:H;
             [ try apply Z.leb_le in H; try apply Z.ltb_lt in H
             | try apply Z.leb_gt in H; try apply Z.ltb_ge in H ]
         end;
    Z.div_mod_to_equations; lia.
Qed.

Lemma date_of_days_month_day z :
  1 ≤ month (date_of_days z) ≤ 12 ∧ 1 ≤ day (date_of_days z) ≤ 31.
Proof.
  unfold date_of_days. cbn [month day].
  repeat match goal with
         | |- context [if ?b then _ else _] =>
             let H := fresh in
             destruct b eqn:H;
             [ try apply Z.ltb_lt in H | try apply Z.ltb_ge in H ]
         end;
    Z.div_mod_to_equations; lia.
Qed.

Lemma valid_date_day_le_31 d : valid_date d → 1 ≤ day d ≤ 31.
Proof.
  intros (_ & _ & Hd). unfold days_in_month in Hd.
  repeat match type of Hd with context [if ?b then _ else _] => destruct b end; lia.
Qed.

(** What [fromtimestamp] makes of a midnight. *)
Lemma fromtimestamp_of_date d :
  valid_date d →
  fromtimestamp (days_of_date d * 86400) = OK (mkDatetime d time_min true).
Proof.
  intros Hd. unfold fromtimestamp.
  rewrite Z.div_mul, Z.mod_mul by lia. rewrite date_of_days_of_date by done.
  destruct Hd as (Hy & _ & _).
  destruct (Z.leb_spec 1 (year d)); [|lia].
  destruct (Z.leb_spec (year d) 9999); [|lia]. reflexivity.
Qed.

(** X1.  The two validators of Benzinga undo each other on dates: the
    timestamp that the query's [date_validate] makes of a date is turned back
    into that date by the data model's [validate_date].  The one exception is
    1970-01-01, whose timestamp 0 comes back as the integer 0. *)
Theorem date_survives_both_validators d :
  valid_date d →
  BenzingaPriceTargetQueryParams.date_validate (VDate d)
  = OK (VInt (days_of_date d * 86400))
  ∧ (d ≠ mkDate 1970 1 1 →
     BenzingaPriceTargetData.validate_date (VInt (days_of_date d * 86400)) = OK (VDate d))
  ∧ (d = mkDate 1970 1 1 →
     BenzingaPriceTargetData.validate_date (VInt (days_of_date d * 86400)) = OK (VInt 0)).
Proof.
  intros Hd. pose proof (valid_date_day_le_31 d Hd) as Hday.
  destruct Hd as (Hy & Hm & Hdd). split_and!.
  - by apply date_validate_of_date.
  - intros Hne.
    assert (days_of_date d * 86400 ≠ 0) as Hnz.
    { intros Hz. apply Hne.
      assert (days_of_date d = 0) as Hzero by lia.
      rewrite <- (date_of_days_of_date d) by done. by rewrite Hzero. }
    rewrite (validate_date_nonzero _ (mkDatetime d time_min true) Hnz)
      by (by apply fromtimestamp_of_date).
    by rewrite Z.mod_mul by lia.
  - intros ->. reflexivity.
Qed.

Lemma date_survives_both_validators_witness :
  BenzingaPriceTargetQueryParams.date_validate (VDate (mkDate 2024 2 29))
  = OK (VInt 1709164800)
  ∧ BenzingaPriceTargetData.validate_date (VInt 1709164800)
    = OK (VDate (mkDate 2024 2 29)).
Proof.
  assert (valid_date (mkDate 2024 2 29)) as Hvalid.
  { unfold valid_date. vm_compute. intuition discriminate. }
  destruct (date_survives_both_validators (mkDate 2024 2 29) Hvalid)
    as (Hquery & Hdata & _).
  split; [exact Hquery|]. apply Hdata. discriminate.
Defined.

(** X2.  And in the other direction: whatever [validate_date] of the data
    model makes of a timestamp other than 0, a date or a datetime, the
    query's [date_validate] makes the same timestamp of it again. *)
Theorem timestamp_survives_both_validators t v :
  t ≠ 0 →
  BenzingaPriceTargetData.validate_date (VInt t) = OK v →
  BenzingaPriceTargetQueryParams.date_validate v = OK (VInt t).
Proof.
  intros Hne Hv.
  destruct (fromtimestamp t) as [dt|e] eqn:Hdt.
  2:{ unfold BenzingaPriceTargetData.validate_date in Hv. simpl in Hv.
      destruct (Z.eqb_spec t 0); [done|]. simpl in Hv. by rewrite Hdt in Hv. }
  rewrite (validate_date_nonzero t dt Hne Hdt) in Hv. injection Hv as <-.
  unfold fromtimestamp in Hdt.
  destruct (Z.leb_spec 1 (year (date_of_days (t / 86400)))) as [Hlo|]; [|done].
  destruct (Z.leb_spec (year (date_of_days (t / 86400))) 9999) as [Hhi|]; [|done].
  simpl in Hdt. injection Hdt as <-.
  pose proof (date_of_days_month_day (t / 86400)) as [Hmonth Hday].
  pose proof (days_of_date_of_days (t / 86400)) as Hdays.
  pose proof (Z.mod_pos_bound t 86400 ltac:(lia)) as Hs.
  set (s := t mod 86400) in *.
  assert (t = t / 86400 * 86400 + s) as Ht.
  { subst s. rewrite Z.mod_eq by lia. lia. }
  destruct (Z.eqb_spec s 0) as [Hs0|Hs0]; cbn [dt_date].
  - rewrite date_validate_of_date by done. rewrite Hdays. do 2 f_equal. lia.
  - rewrite date_validate_of_datetime; cbn [dt_date dt_time hour minute second microsecond];
      try done.
    + rewrite Hdays. do 2 f_equal. clearbody s. clear Hdays.
      Z.div_mod_to_equations. lia.
    + Z.div_mod_to_equations. lia.
    + Z.div_mod_to_equations. lia.
    + Z.div_mod_to_equations. lia.
Qed.

Lemma timestamp_survives_both_validators_witness :
  BenzingaPriceTargetData.validate_date (VInt 1700000000)
  = OK (VDatetime (mkDatetime (mkDate 2023 11 14) (mkTime 22 13 20 0) true))
  ∧ BenzingaPriceTargetQueryParams.date_validate
      (VDatetime (mkDatetime (mkDate 2023 11 14) (mkTime 22 13 20 0) true))
    = OK (VInt 1700000000).
Proof.
  split; [reflexivity|].
  apply (timestamp_survives_both_validators 1700000000); [lia|reflexivity].
Defined.

(** X3.  Whatever it is given, [validate_date] of the Benzinga data model
    never returns a datetime whose time is midnight; and [parse_date] returns
    nothing but [None] or a bare date. *)
Theorem benzinga_date_validators_shapes `{Externals} v :
  (∀ dt, BenzingaPriceTargetData.validate_date v = OK (VDatetime dt) →
         time_eqb (dt_time dt) time_min = false)
  ∧ (∀ r, BenzingaPriceTargetData.parse_date v = OK r →
          r = VNone ∨ ∃ d, r = VDate d).
Proof.
  split.
  - intros dt. unfold BenzingaPriceTargetData.validate_date.
    destruct (truthy v) eqn:Htruthy.
    + destruct v as [|b|t| | | | |]; try done.
      all: match goal with |- context [fromtimestamp ?x] =>
             destruct (fromtimestamp x) as [dt'|] eqn:Hdt; [|done] end.
      all: simpl; destruct (time_eqb (dt_time dt') time_min) eqn:Htime; [done|].
      all: by intros [= <-].
    + intros [= ->]. done.
  - intros r. unfold BenzingaPriceTargetData.parse_date.
    destruct (truthy v); [|intros [= <-]; by left].
    destruct v as [| | |s| | | |]; try done.
    destruct (strptime s _); [|done]. intros [= <-]. right. eauto.
Qed.

Lemma benzinga_date_validators_shapes_witness :
  BenzingaPriceTargetData.validate_date (VInt 1700000000)
  = OK (VDatetime (mkDatetime (mkDate 2023 11 14) (mkTime 22 13 20 0) true))
  ∧ time_eqb (mkTime 22 13 20 0) time_min = false.
Proof.
  split; [reflexivity|].
  destruct (@benzinga_date_validators_shapes strict_python (VInt 1700000000)) as [Htime _].
  apply (Htime (mkDatetime (mkDate 2023 11 14) (mkTime 22 13 20 0) true)). reflexivity.
Defined.

(** X4.  [replace_empty_strings] keeps the keys and their order, leaves no
    value that is the empty string, leaves every other value as it was, and
    changes nothing when run a second time. *)
Theorem replace_empty_strings_cleans values :
  Dict.wf values →
  Dict.keys (BenzingaPriceTargetData.replace_empty_strings values) = Dict.keys values
  ∧ (∀ k, Dict.get k (BenzingaPriceTargetData.replace_empty_strings values)
          ≠ Some (VStr EmptyString))
  ∧ (∀ k v, Dict.get k values = Some v → v ≠ VStr EmptyString →
            Dict.get k (BenzingaPriceTargetData.replace_empty_strings values) = Some v)
  ∧ BenzingaPriceTargetData.replace_empty_strings
      (BenzingaPriceTargetData.replace_empty_strings values)
    = BenzingaPriceTargetData.replace_empty_strings values.
Proof.
  intros Hwf.
  assert (BenzingaPriceTargetData.replace_empty_strings values
          = map (fun kv => (kv.1, BenzingaPriceTargetData.none_if_empty kv.2)) values)
    as Hmap by (by apply comprehension_values).
  split_and!.
  - rewrite Hmap. apply keys_map_values.
  - intros k. rewrite get_replace_empty_strings by done.
    destruct (Dict.get k values) as [v|]; [|done]. simpl.
    intros [= Hv]. by apply none_if_empty_not_empty in Hv.
  - intros k v Hk Hv. rewrite get_replace_empty_strings by done.
    rewrite Hk. simpl. by rewrite none_if_empty_other.
  - rewrite Hmap at 1 2.
    unfold BenzingaPriceTargetData.replace_empty_strings at 1.
    rewrite comprehension_values.
    2:{ unfold Dict.wf. by rewrite keys_map_values. }
    rewrite map_map. apply map_ext. intros [k v]. simpl. f_equal.
    apply none_if_empty_other, none_if_empty_not_empty.
Qed.

Lemma replace_empty_strings_cleans_witness :
  BenzingaPriceTargetData.replace_empty_strings
    [("ticker", VStr "AAPL"); ("analyst_name", VStr EmptyString); ("pt_current", VStr "250.00")]
  = [("ticker", VStr "AAPL"); ("analyst_name", VNone); ("pt_current", VStr "250.00")]
  ∧ ∀ k, Dict.get k (BenzingaPriceTargetData.replace_empty_strings
                       [("ticker", VStr "AAPL"); ("analyst_name", VStr EmptyString);
                        ("pt_current", VStr "250.00")])
         ≠ Some (VStr EmptyString).
Proof.
  split; [reflexivity|].
  apply (replace_empty_strings_cleans
           [("ticker", VStr "AAPL"); ("analyst_name", VStr EmptyString);
            ("pt_current", VStr "250.00")]).
  dict_wf.
Defined.



(** ** The FMP transform, further *)

Lemma new_item_pairs item :
  pairs_of (fun k v => (if negb (String.eqb k "analystCompany") then k else "analyst_firm", v))
    item = map renamed item.
Proof. reflexivity. Qed.

Lemma get_new_item k item :
  Dict.get k (FMPPriceTargetFetcher.new_item item) = Dict.get k (map renamed (rev item)).
Proof.
  unfold FMPPriceTargetFetcher.new_item.
  by rewrite get_comprehension, new_item_pairs, map_rev.
Qed.

(** Comparisons of keys, decided one after the other. *)
Ltac compare_keys :=
  cbn [map find]; unfold renamed at 1; cbn [fst snd];
  repeat (match goal with
          | |- context [String.eqb ?a ?b] => destruct (String.eqb_spec a b); subst
          end;
          cbn [negb orb Dict.get fst snd fmap option_fmap option_map]);
  try congruence; try match goal with IH : _ |- _ => exact IH end.

Lemma get_renamed_company l : Dict.get "analystCompany" (map renamed l) = None.
Proof.
  induction l as [|[k v] l IH]; [done|]. compare_keys.
Qed.

Lemma get_renamed_firm l :
  Dict.get "analyst_firm" (map renamed l)
  = snd <$> find (fun kv => is_analyst_key kv.1) l.
Proof.
  induction l as [|[k v] l IH]; [done|]. unfold is_analyst_key at 1. compare_keys.
Qed.

Lemma get_renamed_other k l :
  is_analyst_key k = false → Dict.get k (map renamed l) = Dict.get k l.
Proof.
  unfold is_analyst_key. intros [Hc Hf]%orb_false_elim.
  apply String.eqb_neq in Hc, Hf.
  induction l as [|[k' v] l IH]; [done|]. compare_keys.
Qed.

Lemma get_new_item_other item k :
  Dict.wf item → is_analyst_key k = false →
  Dict.get k (FMPPriceTargetFetcher.new_item item) = Dict.get k item.
Proof.
  intros Hwf Hk. rewrite get_new_item, get_renamed_other by done.
  by apply get_rev_wf.
Qed.

(** X6.  [new_item] always builds a dictionary that has no key
    [analystCompany]; its [analyst_firm] is the value of whichever of
    [analystCompany] and [analyst_firm] comes last in the raw record; and of
    a raw record that is a dictionary every other key keeps its value. *)
Theorem new_item_last_analyst_key_wins item :
  Dict.wf (FMPPriceTargetFetcher.new_item item)
  ∧ Dict.get "analystCompany" (FMPPriceTargetFetcher.new_item item) = None
  ∧ Dict.get "analyst_firm" (FMPPriceTargetFetcher.new_item item)
    = snd <$> find (fun kv => is_analyst_key kv.1) (rev item)
  ∧ (Dict.wf item →
     ∀ k, is_analyst_key k = false →
          Dict.get k (FMPPriceTargetFetcher.new_item item) = Dict.get k item).
Proof.
  split_and!.
  - apply wf_comprehension.
  - rewrite get_new_item. apply get_renamed_company.
  - rewrite get_new_item. apply get_renamed_firm.
  - intros Hwf k Hk. by apply get_new_item_other.
Qed.

Lemma new_item_last_analyst_key_wins_witness :
  let item := [("symbol", VStr "AAPL"); ("analyst_firm", VStr "Old");
               ("analystCompany", VStr "New")] in
  FMPPriceTargetFetcher.new_item item
  = [("symbol", VStr "AAPL"); ("analyst_firm", VStr "New")]
  ∧ Dict.get "symbol" (FMPPriceTargetFetcher.new_item item) = Some (VStr "AAPL").
Proof.
  intros item. split; [reflexivity|].
  destruct (new_item_last_analyst_key_wins item) as (_ & _ & _ & Hothers).
  apply (Hothers ltac:(dict_wf) "symbol"). reflexivity.
Defined.

(** X7.  On a raw record that has no [analyst_firm] of its own, [new_item]
    is a plain renaming: the same pairs in the same order, with the key
    [analystCompany] turned into [analyst_firm]. *)
Theorem new_item_renames_in_place item :
  Dict.wf item → Dict.get "analyst_firm" item = None →
  FMPPriceTargetFetcher.new_item item = map renamed item
  ∧ length (FMPPriceTargetFetcher.new_item item) = length item
  ∧ Dict.get "analyst_firm" (FMPPriceTargetFetcher.new_item item)
    = Dict.get "analystCompany" item.
Proof.
  intros Hwf Hfirm.
  assert (FMPPriceTargetFetcher.new_item item = map renamed item) as Hmap.
  { unfold FMPPriceTargetFetcher.new_item. rewrite comprehension_map; [done|].
    rewrite new_item_pairs. unfold Dict.wf, Dict.keys in *. rewrite map_map.
    apply get_None_keys in Hfirm.
    change (map (fun x => (renamed x).1) item)
      with ((fun x : string * pyval =>
               if negb (String.eqb x.1 "analystCompany") then x.1 else "analyst_firm")
              <$> item).
    replace ((fun x : string * pyval =>
                if negb (String.eqb x.1 "analystCompany") then x.1 else "analyst_firm")
               <$> item)
      with ((fun k => if negb (String.eqb k "analystCompany") then k else "analyst_firm")
              <$> (map fst item))
      by (by rewrite <- list_fmap_compose).
    apply NoDup_fmap_2_strong; [|done].
    intros x y Hx Hy.
    destruct (String.eqb_spec x "analystCompany") as [->|Hnx];
      destruct (String.eqb_spec y "analystCompany") as [->|Hny]; simpl; try done.
    - intros <-. done.
    - intros ->. done. }
  split_and!; [done| |].
  - by rewrite Hmap, length_map.
  - rewrite Hmap. clear Hmap. apply get_None_keys in Hfirm.
    induction item as [|[k v] item IH]; [done|].
    unfold Dict.wf in Hwf. simpl in Hwf, Hfirm.
    apply NoDup_cons in Hwf as [_ Hwf]. apply not_elem_of_cons in Hfirm as [Hk Hfirm].
    specialize (IH Hwf Hfirm). compare_keys.
Qed.

Lemma new_item_renames_in_place_witness :
  FMPPriceTargetFetcher.new_item
    [("symbol", VStr "AAPL"); ("analystCompany", VStr "Acme"); ("priceTarget", VInt 250)]
  = [("symbol", VStr "AAPL"); ("analyst_firm", VStr "Acme"); ("priceTarget", VInt 250)].
Proof.
  apply (new_item_renames_in_place
           [("symbol", VStr "AAPL"); ("analystCompany", VStr "Acme"); ("priceTarget", VInt 250)]);
    [dict_wf|reflexivity].
Defined.

Lemma remove_char_app c s1 s2 :
  remove_char c (s1 ++ s2) = remove_char c s1 ++ remove_char c s2.
Proof.
  induction s1 as [|c' s1 IH]; simpl; [done|].
  destruct (Ascii.eqb c' c); simpl; by rewrite IH.
Qed.

Lemma remove_char_count c s : count_char c (remove_char c s) = 0%nat.
Proof.
  induction s as [|c' s IH]; simpl; [done|].
  destruct (Ascii.eqb c' c) eqn:Hc; simpl; [done|]. by rewrite Hc.
Qed.

(** X8.  Line feeds in a published date of FMP do not matter: the validator
    hands [strptime] the text without them, so a date with a line feed
    anywhere in it validates to what the date without it validates to. *)
Theorem fmp_published_date_ignores_line_feeds `{Externals} :
  (∀ s1 s2,
      FMPPriceTargetData.validate_date (VStr (s1 ++ String newline s2))
      = FMPPriceTargetData.validate_date (VStr (s1 ++ s2)))
  ∧ (∀ s, FMPPriceTargetData.validate_date (VStr s)
          = FMPPriceTargetData.validate_date (VStr (remove_char newline s))
          ∧ count_char newline (remove_char newline s) = 0%nat).
Proof.
  split.
  - intros s1 s2. unfold FMPPriceTargetData.validate_date.
    rewrite !remove_char_app. cbn [remove_char]. by rewrite Ascii.eqb_refl.
  - intros s. split; [|apply remove_char_count].
    unfold FMPPriceTargetData.validate_date.
    assert (remove_char newline (remove_char newline s) = remove_char newline s) as ->; [|done].
    induction s as [|c s IH]; simpl; [done|].
    destruct (Ascii.eqb c newline) eqn:Hc; simpl; [done|]. by rewrite Hc, IH.
Qed.

Section TransformFailure.
Context `{Externals}.

Lemma benzinga_transform_loop_app before rest results records :
  Forall2 (fun item record =>
             BenzingaPriceTargetData.model_validate (Dict.pop "url_calendar" item)
             = OK record) before records →
  BenzingaPriceTargetFetcher.transform_loop (before ++ rest) results
  = BenzingaPriceTargetFetcher.transform_loop rest (results ++ records).
Proof.
  intros Hall. revert results.
  induction Hall as [|item record before records Hitem _ IH]; intros results; simpl.
  - by rewrite app_nil_r.
  - rewrite Hitem. simpl. rewrite IH. by rewrite <- app_assoc.
Qed.

Lemma fmp_transform_loop_app before rest results records :
  Forall2 (fun item record =>
             FMPPriceTargetData.model_validate (FMPPriceTargetFetcher.new_item item)
             = OK record) before records →
  FMPPriceTargetFetcher.transform_loop (before ++ rest) results
  = FMPPriceTargetFetcher.transform_loop rest (results ++ records).
Proof.
  intros Hall. revert results.
  induction Hall as [|item record before records Hitem _ IH]; intros results; simpl.
  - by rewrite app_nil_r.
  - rewrite Hitem. simpl. rewrite IH. by rewrite <- app_assoc.
Qed.

End TransformFailure.

(** X9.  [transform_data] is all or nothing: when the records before it
    validate and a record does not, the exception of that record is what
    [transform_data] raises, whatever follows; no partial list is returned.
    This holds for Benzinga and for FMP. *)
Theorem transform_data_raises_the_first_failure `{Externals} :
  (∀ query before item after e,
     Forall (fun item =>
               ∃ record, BenzingaPriceTargetData.model_validate
                           (Dict.pop "url_calendar" item) = OK record) before →
     BenzingaPriceTargetData.model_validate (Dict.pop "url_calendar" item) = Raise e →
     BenzingaPriceTargetFetcher.transform_data query (before ++ item :: after) = Raise e)
  ∧ (∀ query before item after e,
       Forall (fun item =>
                 ∃ record, FMPPriceTargetData.model_validate
                             (FMPPriceTargetFetcher.new_item item) = OK record) before →
       FMPPriceTargetData.model_validate (FMPPriceTargetFetcher.new_item item) = Raise e →
       FMPPriceTargetFetcher.transform_data query (before ++ item :: after) = Raise e).
Proof.
  split; intros query before item after e [records Hall]%Forall_validates Hitem.
  - unfold BenzingaPriceTargetFetcher.transform_data.
    rewrite (benzinga_transform_loop_app _ _ _ _ Hall). simpl. by rewrite Hitem.
  - unfold FMPPriceTargetFetcher.transform_data.
    rewrite (fmp_transform_loop_app _ _ _ _ Hall). simpl. by rewrite Hitem.
Qed.

Lemma transform_data_raises_the_first_failure_witness :
  @BenzingaPriceTargetFetcher.transform_data strict_python sample_benzinga_query
    [ [("ticker", VStr "AAPL")];
      [("ticker", VStr "MSFT"); ("updated", VStr "yesterday")];
      [("ticker", VStr "TSLA")] ]
  = Raise TypeError.
Proof.
  destruct (@transform_data_raises_the_first_failure strict_python) as [Hbenzinga _].
  apply (Hbenzinga sample_benzinga_query [[("ticker", VStr "AAPL")]]
           [("ticker", VStr "MSFT"); ("updated", VStr "yesterday")]
           [[("ticker", VStr "TSLA")]]).
  - repeat constructor. eexists. reflexivity.
  - reflexivity.
Defined.

(** X10.  FMP's [validate_date] presupposes a string: a record whose
    published date, found under [publishedDate] or else under
    [published_date], is anything else (the [None] of a JSON null, a number)
    makes [model_validate] raise [AttributeError] ([TypeError] for a date),
    not a validation error, and with it the whole [transform_data]. *)
Theorem fmp_published_date_must_be_a_string `{Externals} item v :
  alias_generator "published_date" = "publishedDate" →
  Dict.wf item →
  argument item "published_date" (Some "publishedDate") = Some v →
  is_str v = false →
  let e := match v with VDate _ | VDatetime _ => TypeError | _ => AttributeError end in
  FMPPriceTargetData.model_validate (FMPPriceTargetFetcher.new_item item) = Raise e
  ∧ ∀ query after, FMPPriceTargetFetcher.transform_data query (item :: after) = Raise e.
Proof.
  intros Halias Hwf Harg Hstr e.
  assert (∀ k, k = "publishedDate" ∨ k = "published_date" →
               Dict.get k (use_alias FMPPriceTargetData.__alias_dict__
                             (FMPPriceTargetFetcher.new_item item))
               = Dict.get k item) as Hget.
  { intros k Hk. rewrite get_use_alias_plain.
    - apply get_new_item_other; [done|]. by destruct Hk as [-> | ->].
    - apply wf_comprehension.
    - destruct Hk as [-> | ->]; apply (bool_decide_unpack _); by vm_compute.
    - by destruct Hk as [-> | ->]. }
  assert (FMPPriceTargetData.model_validate (FMPPriceTargetFetcher.new_item item)
          = Raise e) as Hmodel.
  { unfold FMPPriceTargetData.model_validate, FMPPriceTargetData.prepare, validate_before.
    rewrite Halias, (Hget "publishedDate") by (by left).
    unfold argument in Harg.
    destruct (Dict.get "publishedDate" item) as [v0|] eqn:Hv0.
    - injection Harg as ->. rewrite (Hget "publishedDate"), Hv0 by (by left).
      subst e. by destruct v.
    - rewrite (Hget "published_date"), Harg by (by right). subst e. by destruct v. }
  split; [done|].
  intros query after. unfold FMPPriceTargetFetcher.transform_data. simpl.
  by rewrite Hmodel.
Qed.

Lemma fmp_published_date_must_be_a_string_witness :
  @FMPPriceTargetFetcher.transform_data strict_python sample_fmp_query
    [ [("symbol", VStr "AAPL"); ("publishedDate", VNone)]; [("symbol", VStr "MSFT")] ]
  = Raise AttributeError.
Proof.
  apply (@fmp_published_date_must_be_a_string strict_python
           [("symbol", VStr "AAPL"); ("publishedDate", VNone)] VNone);
    [reflexivity|dict_wf|reflexivity|reflexivity].
Defined.

(** ** The extraction steps, further *)

Lemma concat_cons_char sep c piece rest :
  String.concat sep (String c piece :: rest) = String c (String.concat sep (piece :: rest)).
Proof. by destruct rest. Qed.

(** Joining what [split] gave restores the string. *)
Lemma join_split s : join "," (split comma s) = s.
Proof.
  unfold join. induction s as [|c s IH]; simpl; [done|].
  pose proof (split_nonempty comma s) as Hne.
  destruct (Ascii.eqb_spec c comma) as [->|Hc].
  - destruct (split comma s) as [|piece rest]; [done|].
    change (String.concat "," (EmptyString :: piece :: rest))
      with (String comma (String.concat "," (piece :: rest))).
    by rewrite IH.
  - destruct (split comma s) as [|piece rest]; [done|].
    by rewrite concat_cons_char, IH.
Qed.

Lemma split_pieces sep s : Forall (fun piece => count_char sep piece = 0%nat) (split sep s).
Proof.
  induction s as [|c s IH]; simpl; [by repeat constructor|].
  destruct (Ascii.eqb c sep) eqn:Hc; [by constructor|].
  destruct (split sep s) as [|piece rest]; [repeat constructor; simpl; by rewrite Hc|].
  apply Forall_cons in IH as [Hpiece Hrest]. constructor; [|done].
  simpl. by rewrite Hc.
Qed.

Lemma split_app_separator sep piece rest :
  count_char sep piece = 0%nat →
  split sep (piece ++ String sep rest) = piece :: split sep rest.
Proof.
  induction piece as [|c piece IH]; simpl.
  - by rewrite Ascii.eqb_refl.
  - destruct (Ascii.eqb c sep); [done|]. intros Hpiece. by rewrite IH.
Qed.

(** Splitting what was joined restores the list, when no item has a comma. *)
Lemma split_join ss :
  ss ≠ [] → Forall (fun s => count_char comma s = 0%nat) ss →
  split comma (join "," ss) = ss.
Proof.
  unfold join. induction ss as [|s ss IH]; [done|]. intros _ [Hs Hss]%Forall_cons.
  destruct ss as [|s' ss].
  - simpl. by apply split_without_separator.
  - change (String.concat "," (s :: s' :: ss))
      with (s ++ String comma (String.concat "," (s' :: ss))).
    rewrite split_app_separator by done. by rewrite IH.
Qed.

(** X11.  The URLs that FMP's [aextract_data] requests are made, in order,
    for the pieces of the query's symbol between its commas: none of the
    pieces contains a comma, joined by commas they give the symbol back, and
    there is one more of them than the symbol has commas (so an empty
    symbol, or a comma at its end, costs a request for the empty symbol). *)
Theorem fmp_symbols_partition_the_symbol `{Network} credentials w s :
  FMPPriceTargetQueryParams.symbol (query w) = VStr s →
  ∃ symbols,
    issued (FMPPriceTargetFetcher.aextract_data credentials w).2
    = (issued w
       ++ map (fun symbol =>
                 create_url 4 (FMPPriceTargetFetcher.endpoint_of (query w))
                   (credential credentials "fmp_api_key")
                   (FMPPriceTargetQueryParams.set_symbol (VStr symbol) (query w))
                   ["limit"]) symbols)%list
    ∧ join "," symbols = s
    ∧ Forall (fun piece => count_char comma piece = 0%nat) symbols
    ∧ length symbols = S (count_char comma s).
Proof.
  intros Hs. exists (split comma s).
  rewrite (fmp_aextract_data_run credentials w s Hs), get_data_urls_run.
  split_and!; [done|apply join_split|apply split_pieces|apply split_length].
Qed.

Lemma fmp_symbols_partition_the_symbol_witness :
  ∃ symbols,
    issued (@FMPPriceTargetFetcher.aextract_data (canned_network sample_fmp_upstream) None
              (mkWorld (FMPPriceTargetQueryParams.mk (VStr "AAPL,") (VInt 200) (VBool false))
                 [])).2
    = map (fun symbol => "price-target/" ++ symbol) symbols
    ∧ join "," symbols = "AAPL,"
    ∧ length symbols = 2%nat.
Proof.
  destruct (@fmp_symbols_partition_the_symbol (canned_network sample_fmp_upstream) None
              (mkWorld (FMPPriceTargetQueryParams.mk (VStr "AAPL,") (VInt 200) (VBool false))
                 []) "AAPL," eq_refl) as (symbols & Hissued & Hjoin & _ & Hlength).
  exists symbols. split_and!; [|exact Hjoin|exact Hlength].
  rewrite Hissued. simpl. apply map_ext. intros symbol. reflexivity.
Defined.

(** X12.  When the query's symbol is not a string, FMP's [aextract_data]
    raises [AttributeError] before anything else happens: no request is
    issued and the query is what it was. *)
Theorem fmp_symbol_must_be_a_string `{Network} credentials w :
  is_str (FMPPriceTargetQueryParams.symbol (query w)) = false →
  FMPPriceTargetFetcher.aextract_data credentials w = (Raise AttributeError, w).
Proof.
  intros Hs. unfold FMPPriceTargetFetcher.aextract_data, and_then, read, raise.
  by destruct (FMPPriceTargetQueryParams.symbol (query w)).
Qed.

Lemma fmp_symbol_must_be_a_string_witness :
  @FMPPriceTargetFetcher.aextract_data (canned_network sample_fmp_upstream) None
    (mkWorld (FMPPriceTargetQueryParams.mk VNone (VInt 200) (VBool false)) [])
  = (Raise AttributeError,
     mkWorld (FMPPriceTargetQueryParams.mk VNone (VInt 200) (VBool false)) []).
Proof.
  apply (@fmp_symbol_must_be_a_string (canned_network sample_fmp_upstream)). reflexivity.
Defined.

(** X13.  Benzinga's [aextract_data] issues exactly one request, whether it
    then returns or raises.  Of the answer only the first element counts:
    what follows it is ignored, and a first element that is no dictionary
    raises [AttributeError]; a failed request raises its own exception. *)
Theorem benzinga_one_request_first_element `{Network} credentials w :
  let url := BenzingaPriceTargetFetcher.request_url credentials (query w) in
  let run := BenzingaPriceTargetFetcher.aextract_data credentials w in
  issued run.2 = (issued w ++ [url])%list
  ∧ (∀ first rest,
       upstream url = OK (first :: rest) →
       run.1 = match first with
               | VDict d => OK (default VNone (Dict.get "ratings" d))
               | _ => Raise AttributeError
               end)
  ∧ (∀ e, upstream url = Raise e → run.1 = Raise e).
Proof.
  intros url run. subst run url. rewrite benzinga_aextract_data_run. simpl.
  split_and!; [done| |].
  - intros first rest ->. by destruct first.
  - by intros e ->.
Qed.

Lemma benzinga_one_request_first_element_witness :
  let N := canned_network (fun _ => OK [VDict [("ratings", VList [VDict [("ticker", VStr "AAPL")]])];
                                        VDict [("ratings", VList [VDict [("ticker", VStr "MSFT")]])]]) in
  (@BenzingaPriceTargetFetcher.aextract_data N None (mkWorld sample_benzinga_query [])).1
  = OK (VList [VDict [("ticker", VStr "AAPL")]]).
Proof.
  intros N.
  destruct (@benzinga_one_request_first_element N None (mkWorld sample_benzinga_query []))
    as (_ & Hfirst & _).
  apply (Hfirst (VDict [("ratings", VList [VDict [("ticker", VStr "AAPL")]])])
           [VDict [("ratings", VList [VDict [("ticker", VStr "MSFT")]])]]).
  reflexivity.
Defined.

(** X14.  The token of the Benzinga URL: without credentials, or with empty
    ones, the URL ends in an empty token; with credentials that lack
    ["benzinga_api_key"] it ends in the text [None]; otherwise in the key. *)
Theorem benzinga_token_of_credentials `{Network} query :
  let url_with token := BenzingaPriceTargetFetcher.base_url ++ "?"
                        ++ get_querystring query ++ "&token=" ++ token in
  BenzingaPriceTargetFetcher.request_url None query = url_with EmptyString
  ∧ BenzingaPriceTargetFetcher.request_url (Some []) query = url_with EmptyString
  ∧ (∀ credentials,
       credentials ≠ [] → lookup_str "benzinga_api_key" credentials = None →
       BenzingaPriceTargetFetcher.request_url (Some credentials) query = url_with "None")
  ∧ (∀ credentials key,
       lookup_str "benzinga_api_key" credentials = Some key →
       BenzingaPriceTargetFetcher.request_url (Some credentials) query = url_with key).
Proof.
  intros url_with. subst url_with.
  unfold BenzingaPriceTargetFetcher.request_url, credential.
  split_and!; [done|done| |].
  - intros [|pair credentials] Hne Hkey; [done|]. by rewrite Hkey.
  - intros [|pair credentials] key Hkey; [done|]. by rewrite Hkey.
Qed.

Lemma benzinga_token_of_credentials_witness :
  @BenzingaPriceTargetFetcher.request_url (canned_network (fun _ => OK []))
    (Some [("fmp_api_key", "k1")]) sample_benzinga_query
  = "https://api.benzinga.com/api/v2.1/calendar/ratings?&token=None"
  ∧ @BenzingaPriceTargetFetcher.request_url (canned_network (fun _ => OK []))
      (Some [("benzinga_api_key", "k2")]) sample_benzinga_query
    = "https://api.benzinga.com/api/v2.1/calendar/ratings?&token=k2".
Proof.
  destruct (@benzinga_token_of_credentials (canned_network (fun _ => OK []))
              sample_benzinga_query) as (_ & _ & Hmissing & Hgiven).
  split.
  - apply (Hmissing [("fmp_api_key", "k1")]); [discriminate|reflexivity].
  - apply (Hgiven [("benzinga_api_key", "k2")] "k2"). reflexivity.
Defined.

(** ** The query models, further *)

(** X15.  The three list fields of a Benzinga query ([analyst_ids],
    [firm_ids], [fields]) never hold a list: in every query that
    [transform_query] returns each of them is [None] or a string.  And these
    fields never fail validation: what they raise, if anything, is the
    [TypeError] of [convert_list]. *)
Theorem benzinga_list_fields_hold_no_list `{Externals} params :
  (∀ q, BenzingaPriceTargetFetcher.transform_query params = OK q →
        Forall (fun v => v = VNone ∨ is_str v = true)
          [ BenzingaPriceTargetQueryParams.analyst_ids q;
            BenzingaPriceTargetQueryParams.firm_ids q;
            BenzingaPriceTargetQueryParams.fields q ])
  ∧ (∀ e, BenzingaPriceTargetQueryParams.analyst_ids_field params = Raise e
          ∨ BenzingaPriceTargetQueryParams.firm_ids_field params = Raise e
          ∨ BenzingaPriceTargetQueryParams.fields_field params = Raise e →
          e = TypeError).
Proof.
  split.
  - intros q Hq. apply construct_ok_inv in Hq.
    destruct Hq as (_ & _ & _ & _ & _ & _ & _ & _ & _ & Ha & Hf & Hfields).
    rewrite !Forall_cons, Forall_nil.
    split_and!; [eapply list_field_shape; eassumption..|done].
  - intros e [He|[He|He]]; eapply list_field_raises; eassumption.
Qed.

Lemma benzinga_list_fields_hold_no_list_witness :
  Forall (fun v => v = VNone ∨ is_str v = true) [VStr "12,15"; VNone; VStr "id,ticker"].
Proof.
  destruct (@benzinga_list_fields_hold_no_list strict_python
              [("symbol", VStr "AAPL"); ("analyst_ids", VList [VStr "12"; VStr "15"]);
               ("firm_ids", VList []); ("fields", VStr "id,ticker")]) as [Hshape _].
  apply (Hshape (BenzingaPriceTargetQueryParams.mk (VStr "AAPL") (VInt 200) (VInt 0) VNone
                   VNone VNone VNone VNone VNone (VStr "12,15") VNone (VStr "id,ticker"))).
  reflexivity.
Defined.

(** X16.  [convert_list] and the split at commas undo each other: a list of
    at least one string, none of which holds a comma, is turned into one
    string whose pieces between the commas are the strings of the list, in
    order; and this string is what the field of the query holds. *)
Theorem convert_list_round_trip `{Externals} ss :
  ss ≠ [] → Forall (fun s => count_char comma s = 0%nat) ss →
  BenzingaPriceTargetQueryParams.convert_list (VList (map VStr ss))
  = OK (VStr (join "," ss))
  ∧ split comma (join "," ss) = ss
  ∧ ∀ params, Dict.get "fields" params = Some (VList (map VStr ss)) →
              BenzingaPriceTargetQueryParams.fields_field params = OK (VStr (join "," ss)).
Proof.
  intros Hne Hss.
  assert (BenzingaPriceTargetQueryParams.convert_list (VList (map VStr ss))
          = OK (VStr (join "," ss))) as Hconvert.
  { unfold BenzingaPriceTargetQueryParams.convert_list.
    destruct ss as [|s ss]; [done|].
    change (truthy (VList (map VStr (s :: ss)))) with true. cbv iota.
    by rewrite strings_of_strings. }
  split_and!; [done|by apply split_join|].
  intros params Hparams.
  unfold BenzingaPriceTargetQueryParams.fields_field, field, argument.
  rewrite Hparams, Hconvert. done.
Qed.

Lemma convert_list_round_trip_witness :
  @BenzingaPriceTargetQueryParams.fields_field strict_python
    [("symbol", VStr "AAPL"); ("fields", VList [VStr "id"; VStr "ticker"; VStr "pt_current"])]
  = OK (VStr "id,ticker,pt_current")
  ∧ split comma "id,ticker,pt_current" = ["id"; "ticker"; "pt_current"].
Proof.
  destruct (@convert_list_round_trip strict_python ["id"; "ticker"; "pt_current"])
    as (_ & Hsplit & Hfield).
  - done.
  - repeat constructor.
  - split; [|exact Hsplit]. apply Hfield. reflexivity.
Defined.

(** Every literal of the query's [action] is converted to a literal of the
    data's [action]. *)
Lemma convert_action_data_literal code :
  code ∈ BenzingaPriceTargetQueryParams.action_literals →
  ∃ wire, BenzingaPriceTargetQueryParams.convert_action (VStr code) = OK (VStr wire)
          ∧ matches (TLiteral data_action_literals) (VStr wire) = true.
Proof.
  revert code. apply Forall_forall. unfold BenzingaPriceTargetQueryParams.action_literals.
  repeat constructor; eexists; split; reflexivity.
Qed.

(** X17.  The [action] of every query that [transform_query] returns is
    [None] or one of the eleven values that the [action] field of
    [BenzingaPriceTargetData] admits: the filter that is sent is always a
    value that the data can carry. *)
Theorem benzinga_action_is_a_data_literal `{Externals} params q :
  BenzingaPriceTargetFetcher.transform_query params = OK q →
  matches TNone (BenzingaPriceTargetQueryParams.action q)
  || matches (TLiteral data_action_literals) (BenzingaPriceTargetQueryParams.action q)
  = true.
Proof.
  intros Hq. apply construct_ok_inv in Hq.
  destruct Hq as (_ & _ & _ & _ & _ & _ & _ & _ & Haction & _).
  revert Haction. generalize (BenzingaPriceTargetQueryParams.action q). intros a.
  unfold BenzingaPriceTargetQueryParams.action_field, field.
  destruct (argument params _ _) as [v|]; [|by intros [= <-]].
  simpl. unfold validate. cbn [existsb filter coercible]. rewrite orb_false_r.
  destruct v as [| | |s| | | |]; cbn [matches orb]; try (cbv; congruence).
  - cbv. by intros [= <-].
  - destruct (existsb (String.eqb s) BenzingaPriceTargetQueryParams.action_literals)
      eqn:Hex; [|cbv; congruence].
    apply existsb_exists in Hex as (code & Hin & ->%String.eqb_eq).
    apply list_elem_of_In, convert_action_data_literal in Hin as (wire & Hwire & Hdata).
    intros Ha.
    change (reported (BenzingaPriceTargetQueryParams.convert_action (VStr code)) = OK a) in Ha.
    rewrite Hwire in Ha. injection Ha as <-. exact Hdata.
Qed.

Lemma benzinga_action_is_a_data_literal_witness :
  matches (TLiteral data_action_literals) (VStr "Initiates Coverage On") = true.
Proof.
  apply (@benzinga_action_is_a_data_literal strict_python
           [("symbol", VStr "AAPL"); ("action", VStr "initiates")]
           (BenzingaPriceTargetQueryParams.mk (VStr "AAPL") (VInt 200) (VInt 0) VNone VNone
              VNone VNone VNone (VStr "Initiates Coverage On") VNone VNone VNone)).
  reflexivity.
Defined.

(** X18.  The defaults of the Benzinga query: of a mapping that gives none
    of the fields the class declares, under their names or their aliases,
    [transform_query] returns the query with page 0 and [None] everywhere
    else, beside what the standard model makes of [symbol] and [limit]. *)
Theorem benzinga_query_defaults `{Externals} params symbol limit :
  Forall (fun k => Dict.get k params = None) benzinga_argument_keys →
  standard_symbol params = OK symbol →
  standard_limit params = OK limit →
  BenzingaPriceTargetFetcher.transform_query params
  = OK (BenzingaPriceTargetQueryParams.mk symbol limit (VInt 0) VNone VNone VNone VNone
          VNone VNone VNone VNone VNone).
Proof.
  intros Hkeys Hsymbol Hlimit. unfold benzinga_argument_keys in Hkeys.
  repeat match type of Hkeys with
         | Forall _ (_ :: _) => apply Forall_cons in Hkeys as [? Hkeys]
         end.
  apply construct_ok; try done;
    unfold BenzingaPriceTargetQueryParams.page_field, BenzingaPriceTargetQueryParams.date_field,
      BenzingaPriceTargetQueryParams.start_date_field,
      BenzingaPriceTargetQueryParams.end_date_field,
      BenzingaPriceTargetQueryParams.updated_field,
      BenzingaPriceTargetQueryParams.importance_field,
      BenzingaPriceTargetQueryParams.action_field,
      BenzingaPriceTargetQueryParams.analyst_ids_field,
      BenzingaPriceTargetQueryParams.firm_ids_field,
      BenzingaPriceTargetQueryParams.fields_field, field, argument;
    by repeat match goal with Hk : Dict.get _ params = None |- _ => rewrite Hk; clear Hk end.
Qed.

Lemma benzinga_query_defaults_witness :
  @BenzingaPriceTargetFetcher.transform_query strict_python [("symbol", VStr "AAPL")]
  = OK sample_benzinga_query.
Proof.
  apply (@benzinga_query_defaults strict_python [("symbol", VStr "AAPL")]);
    [|reflexivity|reflexivity].
  unfold benzinga_argument_keys. repeat constructor.
Defined.

(** X19.  The endpoint of FMP follows [with_grade]: a query made from a
    mapping without [with_grade] is sent to [price-target], one made with the
    boolean [True] to [upgrades-downgrades], and every URL that
    [aextract_data] builds is made for that endpoint. *)
Theorem fmp_endpoint_follows_with_grade `{Externals} `{Network} params q :
  FMPPriceTargetFetcher.transform_query params = OK q →
  (Dict.get "with_grade" params = None →
   FMPPriceTargetFetcher.endpoint_of q = "price-target")
  ∧ (∀ b, Dict.get "with_grade" params = Some (VBool b) →
          FMPPriceTargetFetcher.endpoint_of q
          = if b then "upgrades-downgrades" else "price-target")
  ∧ (∀ credentials s urls,
       FMPPriceTargetQueryParams.symbol q = VStr s →
       issued (FMPPriceTargetFetcher.aextract_data credentials (mkWorld q urls)).2
       = (urls ++ map (fun symbol =>
                         create_url 4 (FMPPriceTargetFetcher.endpoint_of q)
                           (credential credentials "fmp_api_key")
                           (FMPPriceTargetQueryParams.set_symbol (VStr symbol) q)
                           ["limit"]) (split comma s))%list).
Proof.
  unfold FMPPriceTargetFetcher.transform_query, FMPPriceTargetQueryParams.construct.
  intros Hq.
  repeat (apply then_field_ok_inv in Hq as (? & ? & Hq)). injection Hq as <-.
  unfold FMPPriceTargetFetcher.endpoint_of. cbn [FMPPriceTargetQueryParams.with_grade].
  match goal with Hg : FMPPriceTargetQueryParams.with_grade_field _ = _ |- _ =>
    unfold FMPPriceTargetQueryParams.with_grade_field, field, argument in Hg;
    rename Hg into Hgrade end.
  split_and!.
  - intros Hnone. rewrite Hnone in Hgrade. by injection Hgrade as <-.
  - intros b Hb. rewrite Hb in Hgrade. injection Hgrade as <-. by destruct b.
  - intros credentials s urls Hs.
    rewrite (fmp_aextract_data_run credentials (mkWorld _ urls) s Hs).
    by rewrite get_data_urls_run.
Qed.

Lemma fmp_endpoint_follows_with_grade_witness :
  FMPPriceTargetFetcher.endpoint_of
    (FMPPriceTargetQueryParams.mk (VStr "AAPL") (VInt 200) (VBool true))
  = "upgrades-downgrades".
Proof.
  destruct (@fmp_endpoint_follows_with_grade strict_python
              (canned_network sample_fmp_upstream)
              [("symbol", VStr "AAPL"); ("with_grade", VBool true)]
              (FMPPriceTargetQueryParams.mk (VStr "AAPL") (VInt 200) (VBool true))
              eq_refl) as (_ & Hgrade & _).
  apply (Hgrade true). reflexivity.
Defined.
